(** * DESHIFTER: shift correction of a co-registered raster image

    A shallow embedding of [components/DeShifter.py] (class [DESHIFTER])
    and the properties of its output grid, clip extent and correction
    paths.

    Conventions of the embedding.
    - Map coordinates and pixel sizes are Python numbers; they are modelled
      as rationals ([Q]).  Rounding of binary floating point is not
      modelled.
    - The object [self] is a record; a method that assigns attributes takes
      the record and returns the updated one.  A method that can raise
      returns a sum whose left side is the exception.
    - [warnings.warn] and [print] only report; they are left out.
    - What the module imports from [py_tools_ds], [gdal], [rasterio], [os],
      [tempfile] and [numpy] is a member of the class [Collaborators]; the
      methods and their properties are stated over any instance of it.
      The one exception is [find_nearest], which decides where the corners
      of the clip extent go and is given a definition. *)

From Stdlib Require Import QArith Qround Qabs ZArith List String Bool Lia Lqa.
Import ListNotations.

Open Scope string_scope.
Open Scope Q_scope.

(** ** Python values used by the module *)

Inductive PyExn : Type :=
  | AssertionError (msg : string)
  | TypeError (msg : string)
  | ZeroDivisionError
  | KeyError (key : string)
  | RuntimeError (msg : string)
  | AttributeError (msg : string)
  | IndexError (msg : string).

(** A computation that either raises or returns. *)
Definition Raises (A : Type) : Type := (PyExn + A)%type.

Definition ret {A : Type} (a : A) : Raises A := inr a.
Definition raise {A : Type} (e : PyExn) : Raises A := inl e.
Definition bind {A B : Type} (m : Raises A) (k : A -> Raises B) : Raises B :=
  match m with
  | inl e => inl e
  | inr a => k a
  end.

Notation "x <- m ;; k" := (bind m (fun x => k))
  (at level 61, m at next level, right associativity).

(** One axis of a coordinate grid, [[c0, c1]], and a grid
    [[[x0, x1], [y0, y1]]]. *)
Definition Axis : Type := (Q * Q)%type.
Definition Grid : Type := (Axis * Axis)%type.

(** A clip extent [(xmin, ymin, xmax, ymax)]. *)
Definition Extent : Type := (Q * Q * Q * Q)%type.

(** [box.boundsMap] is ordered [(xmin, xmax, ymin, ymax)]. *)
Definition BoundsMap : Type := (Q * Q * Q * Q)%type.

(** A GDAL geotransform, the six numbers [gt[0] .. gt[5]]. *)
Record Geotransform : Type := mkGT {
  gt0 : Q;  (* origin X *)
  gt1 : Q;  (* pixel width *)
  gt2 : Q;
  gt3 : Q;  (* origin Y *)
  gt4 : Q;
  gt5 : Q   (* pixel height *)
}.

(** [gt[0], gt[3] = x, y] on a list copy of a geotransform. *)
Definition set_origin (gt : Geotransform) (x y : Q) : Geotransform :=
  mkGT x (gt1 gt) (gt2 gt) y (gt4 gt) (gt5 gt).

(** ** [find_nearest] *)

Inductive RoundAlg : Type := on | off.

(** Python's [a % b] on numbers, for a non-zero [b]. *)
Definition py_mod (a b : Q) : Q := a - b * inject_Z (Qfloor (a / b)).

Definition Qmax (a b : Q) : Q := if Qle_bool a b then b else a.
Definition Qmin (a b : Q) : Q := if Qle_bool a b then a else b.

(** Modelled from the spec: [find_nearest] is imported from
    [py_tools_ds.ptds.numeric.vector], which is not among the sources.  It is
    only called with [extrapolate=True] on one axis of the output grid.  The
    spec describes it as a nearest-grid-line search with directional
    rounding, inward for min corners and toward the interior for max
    corners, where a value beyond the two anchor samples is reached by
    linear extension along the grid's pitch; the comment at the call site
    says the same (output coords are moved INSIDE the input array).  So the
    two samples are sorted, their difference is the increment, and the
    lines of the grid are [lo + k * increment]; [roundAlg='on'] (used for
    min corners) returns the first line at or above the value,
    [roundAlg='off'] (used for max corners) the last line at or below it.
    An axis whose two samples coincide has no pitch to extend along. *)
Definition find_nearest (array : Axis) (value : Q) (roundAlg : RoundAlg)
  : Raises Q :=
  let lo := Qmin (fst array) (snd array) in
  let hi := Qmax (fst array) (snd array) in
  let increment := Qabs (hi - lo) in
  if Qeq_bool increment 0 then raise ZeroDivisionError
  else
    let k := (value - lo) / increment in
    match roundAlg with
    | on  => ret (lo + increment * inject_Z (Qceiling k))
    | off => ret (lo + increment * inject_Z (Qfloor k))
    end.

(** [v] lies on a line of the grid axis [array]. *)
Definition on_grid_line (array : Axis) (v : Q) : Prop :=
  exists k : Z, v == fst array + (snd array - fst array) * inject_Z k.

(** ** Module-level table and Python helpers *)

Definition _dict_rspAlg_rsp_Int : list (string * Z) :=
  [("nearest", 0); ("bilinear", 1); ("cubic", 2); ("cubic_spline", 3);
   ("lanczos", 4); ("average", 5); ("mode", 6); ("max", 7); ("min", 8);
   ("med", 9); ("q1", 10); ("q2", 11)]%Z.

(** [d.keys()], [s in l] and [d[k]] *)
Definition dict_keys {V : Type} (d : list (string * V)) : list string :=
  map fst d.

Definition str_in (s : string) (l : list string) : bool :=
  existsb (String.eqb s) l.

Fixpoint dict_get {V : Type} (d : list (string * V)) (k : string)
  : option V :=
  match d with
  | [] => None
  | (k', x) :: d' => if String.eqb k k' then Some x else dict_get d' k
  end.

(** [kwargs.get(key, default)] *)
Definition kwargs_get {A : Type} (o : option A) (default : A) : A :=
  match o with
  | Some a => a
  | None => default
  end.

(** Truth values of the Python objects that the methods test. *)
Definition is_None {A : Type} (o : option A) : bool :=
  match o with
  | None => true
  | Some _ => false
  end.

Definition truthy_str (o : option string) : bool :=
  match o with
  | Some s => negb (String.eqb s EmptyString)
  | None => false
  end.

Definition truthy_list {A : Type} (o : option (list A)) : bool :=
  match o with
  | Some (_ :: _) => true
  | _ => false
  end.

Definition truthy_int (o : option Z) : bool :=
  match o with
  | Some n => negb (n =? 0)%Z
  | None => false
  end.

(** ** [DESHIFTER._grids_alignable] (a static method) *)

(** [lambda gsd1, gsd2: max(gsd1, gsd2) % min(gsd1, gsd2) == 0] *)
Definition is_alignable (gsd1 gsd2 : Q) : Raises bool :=
  if Qeq_bool (Qmin gsd1 gsd2) 0 then raise ZeroDivisionError
  else ret (Qeq_bool (py_mod (Qmax gsd1 gsd2) (Qmin gsd1 gsd2)) 0).

Definition _grids_alignable (in_xgsd in_ygsd out_xgsd out_ygsd : Q)
  : Raises bool :=
  ax <- is_alignable in_xgsd out_xgsd ;;
  if negb ax then ret false
  else
    ay <- is_alignable in_ygsd out_ygsd ;;
    if negb ay then ret false else ret true.

(** [lambda gt, xgsd, ygsd: [[gt[0], gt[0] + xgsd], [gt[3], gt[3] - ygsd]]]

    The first line of each axis is a copy of the origin.  The second is a
    sum, exact here and rounded to a binary float in the program: there
    the pitch [(gt[0] + xgsd) - gt[0]] of the axis need not be [xgsd]
    again, so nothing is stated of the pitch of a grid built here. *)
Definition get_grid (gt : Geotransform) (xgsd ygsd : Q) : Grid :=
  ((gt0 gt, gt0 gt + xgsd), (gt3 gt, gt3 gt - ygsd)).

(** ** Collaborators

    The arguments handed to [warp_ndarray] and to the [gdalwarp] command
    line are kept as records, so that what is forwarded can be stated. *)

Record WarpArgs (Arr GCP : Type) : Type := mkWarpArgs {
  wa_ndarray : Arr;
  wa_in_gt : Geotransform;
  wa_in_prj : string;
  wa_out_prj : string;
  wa_rspAlg : Z;
  wa_in_nodata : option Q;
  wa_out_nodata : option Q;
  wa_out_gsd : Q * Q;
  wa_out_bounds : Extent;
  wa_gcpList : option (list GCP);
  wa_CPUs : option Z;
  wa_q : bool
}.

Arguments mkWarpArgs {Arr GCP}.
Arguments wa_ndarray {Arr GCP}.
Arguments wa_in_gt {Arr GCP}.
Arguments wa_in_prj {Arr GCP}.
Arguments wa_out_prj {Arr GCP}.
Arguments wa_rspAlg {Arr GCP}.
Arguments wa_in_nodata {Arr GCP}.
Arguments wa_out_nodata {Arr GCP}.
Arguments wa_out_gsd {Arr GCP}.
Arguments wa_out_bounds {Arr GCP}.
Arguments wa_gcpList {Arr GCP}.
Arguments wa_CPUs {Arr GCP}.
Arguments wa_q {Arr GCP}.

(** [gdalwarp -r .. -tr .. .. -t_srs .. -of .. src dst -srcnodata ..
    -dstnodata .. -overwrite -te ....] *)
Record WarpCmd : Type := mkWarpCmd {
  cmd_r : string;
  cmd_tr : Q * Q;
  cmd_t_srs : string;
  cmd_of : string;
  cmd_src : string;
  cmd_dst : string;
  cmd_srcnodata : option Q;
  cmd_dstnodata : option Q;
  cmd_te : Extent
}.

(** The files that exist, by path. *)
Definition FS : Type := list string.

(** [os.path.exists] *)
Definition path_exists (p : string) (fs : FS) : bool :=
  existsb (String.eqb p) fs.

(** [[gdal.Unlink(p) for p in [path_tmp] if os.path.exists(p)]] *)
Definition unlink_if_exists (p : string) (fs : FS) : FS :=
  if path_exists p fs then filter (fun f => negb (String.eqb p f)) fs else fs.

(** [Arr] stands for numpy arrays, [MapInfo] for ENVI map infos, [GCP] for
    ground control points and [GeoArray] for the class of that name. *)
Class Collaborators (Arr MapInfo GCP GeoArray : Type) : Type := {
  (* attributes and methods of GeoArray *)
  ga_projection : GeoArray -> string;
  ga_geotransform : GeoArray -> Geotransform;
  ga_nodata : GeoArray -> option Q;
  ga_xgsd : GeoArray -> Q;
  ga_ygsd : GeoArray -> Q;
  ga_filePath : GeoArray -> string;
  footprint_poly_bounds : GeoArray -> Extent;
  box_boundsMap : GeoArray -> BoundsMap;
  ga_getitem_all : GeoArray -> Arr;                       (* ga[:] *)
  ga_getitem : GeoArray -> Z -> Arr;                      (* ga[band] *)
  GeoArray_new : Arr -> Geotransform -> string -> GeoArray;
  get_mapPos : GeoArray -> Extent -> string -> option Q
               -> Arr * Geotransform * string;
  ga_save : GeoArray -> string -> string -> FS -> FS;
  (* py_tools_ds.ptds.geo *)
  mapinfo2geotransform : MapInfo -> Geotransform;
  geotransform2mapinfo : Geotransform -> string -> MapInfo;
  is_coord_grid_equal : Geotransform -> Axis -> Axis -> bool;
  prj_equal : string -> string -> bool;
  warp_ndarray : WarpArgs Arr GCP -> Arr * Geotransform * string;
  (* tempfile, subprocess, gdal, rasterio, numpy *)
  mkstemp : string -> string -> string -> FS -> string * FS;
  subcall_with_output : WarpCmd -> FS -> (string * Z * string) * FS;
  (* [gdal.Open(path)] or [gdal.OpenShared(path)] followed by
     [GetGeoTransform()] and [GetProjection()]: a file GDAL cannot open
     gives [None], and the first method call on it raises *)
  gdal_open : string -> FS -> Raises (Geotransform * string);
  (* [rasterio.open(path).read()] and [rasterio.open(path).read(band)],
     which raise on a file or a band that cannot be read *)
  rasterio_read : string -> FS -> option Z -> Raises Arr;
  swapaxes : Arr -> nat -> nat -> Arr
}.

Section Model.
Context {Arr MapInfo GCP GeoArray : Type}.
Context {C : Collaborators Arr MapInfo GCP GeoArray}.

(** ** The object *)

Record DESHIFTER : Type := mkDESHIFTER {
  im2shift : GeoArray;
  shift_prj : string;
  shift_gt : Geotransform;
  GCPList : option (list GCP);
  updated_map_info : MapInfo;
  original_map_info : MapInfo;
  updated_gt : Geotransform;
  ref_gt : Geotransform;
  ref_grid : Grid;
  ref_prj : string;
  updated_projection : string;
  path_out : option string;
  fmt_out : string;
  band2process : option Z;
  nodata : option Q;
  align_grids : bool;
  outFmt : string;
  rspAlg : string;
  warpAlg : string;
  cliptoextent : bool;
  clipextent : option Extent;
  tempDir : string;
  CPUs : option Z;
  v : bool;
  q : bool;
  out_grid : Grid;
  out_gsd : Q * Q;
  is_shifted : bool;
  is_resampled : bool;
  tracked_errors : list PyExn;
  arr_shifted : option Arr;
  GeoArray_shifted : option GeoArray
}.

(** Attribute assignment [self.x = ...], one function per attribute that
    the methods assign after construction. *)

Definition set_shift_prj (x : string) (self : DESHIFTER) : DESHIFTER :=
mkDESHIFTER (im2shift self) x (shift_gt self) (GCPList self)
    (updated_map_info self) (original_map_info self) (updated_gt self)
    (ref_gt self) (ref_grid self) (ref_prj self) (updated_projection self)
    (path_out self) (fmt_out self) (band2process self) (nodata self)
    (align_grids self) (outFmt self) (rspAlg self) (warpAlg self)
    (cliptoextent self) (clipextent self) (tempDir self) (CPUs self) (v
    self) (q self) (out_grid self) (out_gsd self) (is_shifted self)
    (is_resampled self) (tracked_errors self) (arr_shifted self)
    (GeoArray_shifted self).

Definition set_shift_gt (x : Geotransform) (self : DESHIFTER) : DESHIFTER :=
mkDESHIFTER (im2shift self) (shift_prj self) x (GCPList self)
    (updated_map_info self) (original_map_info self) (updated_gt self)
    (ref_gt self) (ref_grid self) (ref_prj self) (updated_projection self)
    (path_out self) (fmt_out self) (band2process self) (nodata self)
    (align_grids self) (outFmt self) (rspAlg self) (warpAlg self)
    (cliptoextent self) (clipextent self) (tempDir self) (CPUs self) (v
    self) (q self) (out_grid self) (out_gsd self) (is_shifted self)
    (is_resampled self) (tracked_errors self) (arr_shifted self)
    (GeoArray_shifted self).

Definition set_updated_map_info (x : MapInfo) (self : DESHIFTER) : DESHIFTER :=
mkDESHIFTER (im2shift self) (shift_prj self) (shift_gt self) (GCPList
    self) x (original_map_info self) (updated_gt self) (ref_gt self)
    (ref_grid self) (ref_prj self) (updated_projection self) (path_out
    self) (fmt_out self) (band2process self) (nodata self) (align_grids
    self) (outFmt self) (rspAlg self) (warpAlg self) (cliptoextent self)
    (clipextent self) (tempDir self) (CPUs self) (v self) (q self)
    (out_grid self) (out_gsd self) (is_shifted self) (is_resampled self)
    (tracked_errors self) (arr_shifted self) (GeoArray_shifted self).

Definition set_updated_gt (x : Geotransform) (self : DESHIFTER) : DESHIFTER :=
mkDESHIFTER (im2shift self) (shift_prj self) (shift_gt self) (GCPList
    self) (updated_map_info self) (original_map_info self) x (ref_gt self)
    (ref_grid self) (ref_prj self) (updated_projection self) (path_out
    self) (fmt_out self) (band2process self) (nodata self) (align_grids
    self) (outFmt self) (rspAlg self) (warpAlg self) (cliptoextent self)
    (clipextent self) (tempDir self) (CPUs self) (v self) (q self)
    (out_grid self) (out_gsd self) (is_shifted self) (is_resampled self)
    (tracked_errors self) (arr_shifted self) (GeoArray_shifted self).

Definition set_updated_projection (x : string) (self : DESHIFTER) : DESHIFTER :=
mkDESHIFTER (im2shift self) (shift_prj self) (shift_gt self) (GCPList
    self) (updated_map_info self) (original_map_info self) (updated_gt
    self) (ref_gt self) (ref_grid self) (ref_prj self) x (path_out self)
    (fmt_out self) (band2process self) (nodata self) (align_grids self)
    (outFmt self) (rspAlg self) (warpAlg self) (cliptoextent self)
    (clipextent self) (tempDir self) (CPUs self) (v self) (q self)
    (out_grid self) (out_gsd self) (is_shifted self) (is_resampled self)
    (tracked_errors self) (arr_shifted self) (GeoArray_shifted self).

Definition set_clipextent (x : option Extent) (self : DESHIFTER) : DESHIFTER :=
mkDESHIFTER (im2shift self) (shift_prj self) (shift_gt self) (GCPList
    self) (updated_map_info self) (original_map_info self) (updated_gt
    self) (ref_gt self) (ref_grid self) (ref_prj self) (updated_projection
    self) (path_out self) (fmt_out self) (band2process self) (nodata self)
    (align_grids self) (outFmt self) (rspAlg self) (warpAlg self)
    (cliptoextent self) x (tempDir self) (CPUs self) (v self) (q self)
    (out_grid self) (out_gsd self) (is_shifted self) (is_resampled self)
    (tracked_errors self) (arr_shifted self) (GeoArray_shifted self).

Definition set_is_shifted (x : bool) (self : DESHIFTER) : DESHIFTER :=
mkDESHIFTER (im2shift self) (shift_prj self) (shift_gt self) (GCPList
    self) (updated_map_info self) (original_map_info self) (updated_gt
    self) (ref_gt self) (ref_grid self) (ref_prj self) (updated_projection
    self) (path_out self) (fmt_out self) (band2process self) (nodata self)
    (align_grids self) (outFmt self) (rspAlg self) (warpAlg self)
    (cliptoextent self) (clipextent self) (tempDir self) (CPUs self) (v
    self) (q self) (out_grid self) (out_gsd self) x (is_resampled self)
    (tracked_errors self) (arr_shifted self) (GeoArray_shifted self).

Definition set_is_resampled (x : bool) (self : DESHIFTER) : DESHIFTER :=
mkDESHIFTER (im2shift self) (shift_prj self) (shift_gt self) (GCPList
    self) (updated_map_info self) (original_map_info self) (updated_gt
    self) (ref_gt self) (ref_grid self) (ref_prj self) (updated_projection
    self) (path_out self) (fmt_out self) (band2process self) (nodata self)
    (align_grids self) (outFmt self) (rspAlg self) (warpAlg self)
    (cliptoextent self) (clipextent self) (tempDir self) (CPUs self) (v
    self) (q self) (out_grid self) (out_gsd self) (is_shifted self) x
    (tracked_errors self) (arr_shifted self) (GeoArray_shifted self).

Definition set_tracked_errors (x : list PyExn) (self : DESHIFTER) : DESHIFTER :=
mkDESHIFTER (im2shift self) (shift_prj self) (shift_gt self) (GCPList
    self) (updated_map_info self) (original_map_info self) (updated_gt
    self) (ref_gt self) (ref_grid self) (ref_prj self) (updated_projection
    self) (path_out self) (fmt_out self) (band2process self) (nodata self)
    (align_grids self) (outFmt self) (rspAlg self) (warpAlg self)
    (cliptoextent self) (clipextent self) (tempDir self) (CPUs self) (v
    self) (q self) (out_grid self) (out_gsd self) (is_shifted self)
    (is_resampled self) x (arr_shifted self) (GeoArray_shifted self).

Definition set_arr_shifted (x : option Arr) (self : DESHIFTER) : DESHIFTER :=
mkDESHIFTER (im2shift self) (shift_prj self) (shift_gt self) (GCPList
    self) (updated_map_info self) (original_map_info self) (updated_gt
    self) (ref_gt self) (ref_grid self) (ref_prj self) (updated_projection
    self) (path_out self) (fmt_out self) (band2process self) (nodata self)
    (align_grids self) (outFmt self) (rspAlg self) (warpAlg self)
    (cliptoextent self) (clipextent self) (tempDir self) (CPUs self) (v
    self) (q self) (out_grid self) (out_gsd self) (is_shifted self)
    (is_resampled self) (tracked_errors self) x (GeoArray_shifted self).

Definition set_GeoArray_shifted (x : option GeoArray) (self : DESHIFTER) : DESHIFTER :=
mkDESHIFTER (im2shift self) (shift_prj self) (shift_gt self) (GCPList
    self) (updated_map_info self) (original_map_info self) (updated_gt
    self) (ref_gt self) (ref_grid self) (ref_prj self) (updated_projection
    self) (path_out self) (fmt_out self) (band2process self) (nodata self)
    (align_grids self) (outFmt self) (rspAlg self) (warpAlg self)
    (cliptoextent self) (clipextent self) (tempDir self) (CPUs self) (v
    self) (q self) (out_grid self) (out_gsd self) (is_shifted self)
    (is_resampled self) (tracked_errors self) (arr_shifted self) x.

(** The returned [OrderedDict] of [deshift_results]. *)
Record Results : Type := mkResults {
  res_band : option Z;
  res_is_shifted : bool;
  res_is_resampled : bool;
  res_updated_map_info : MapInfo;
  res_updated_geotransform : Geotransform;
  res_updated_projection : string;
  res_arr_shifted : option Arr;
  res_GeoArray_shifted : option GeoArray
}.

(** [coreg_results], the dict of [COREG.coreg_info].  The key ['GCPList']
    may be missing ([None]); ['updated map info'] is tested for truth
    ([None] stands for a false value). *)
Record CoregResults : Type := mkCoregResults {
  cr_GCPList : option (list GCP);
  cr_updated_map_info : option MapInfo;
  cr_original_map_info : MapInfo;
  cr_reference_geotransform : Geotransform;
  cr_reference_grid : Grid;
  cr_reference_projection : string
}.

(** The value given for [out_gsd]: a Python [int], a [float], or a tuple or
    list of numbers. *)
Inductive PyGsd : Type :=
  | GsdInt (n : Z)
  | GsdFloat (x : Q)
  | GsdSeq (l : list Q).

(** [**kwargs]: a key that is not passed is [None]. *)
Record Kwargs : Type := mkKwargs {
  kw_path_out : option string;
  kw_fmt_out : option string;
  kw_band2process : option Z;
  kw_nodata : option (option Q);
  kw_align_grids : option bool;
  kw_tempAsENVI : option bool;
  kw_resamp_alg : option string;
  kw_warp_alg : option string;
  kw_cliptoextent : option bool;
  kw_clipextent : option Extent;
  kw_tempDir : option string;
  kw_CPUs : option Z;
  kw_v : option bool;
  kw_q : option bool;
  kw_out_gsd : option PyGsd;
  kw_match_gsd : option bool;
  kw_target_xyGrid : option (list Axis)
}.

(** ** [DESHIFTER._get_out_grid]

    The method reads [self.ref_grid], [self.ref_gt], [self.im2shift] and
    [self.align_grids] of the object under construction; they are its
    first four arguments here. *)
Definition _get_out_grid (im2shift : GeoArray) (ref_gt : Geotransform)
    (ref_grid : Grid) (align_grids : bool) (init_kwargs : Kwargs)
  : Raises Grid :=
  (* parse given params *)
  let out_gsd := kw_out_gsd init_kwargs in
  let match_gsd := kwargs_get (kw_match_gsd init_kwargs) false in
  let out_grid := kw_target_xyGrid init_kwargs in
  (* assertions *)
  _ <- match out_grid with
       | None => ret tt
       | Some g =>
           if (List.length g =? 2)%nat then ret tt else raise (AssertionError EmptyString)
       end ;;
  _ <- match out_gsd with
       | None => ret tt
       | Some (GsdInt _) =>
           (* isinstance holds, then len(out_gsd) is evaluated *)
           raise (TypeError "object of type 'int' has no len()")
       | Some (GsdFloat _) => raise (AssertionError EmptyString)
       | Some (GsdSeq l) =>
           if (List.length l =? 2)%nat then ret tt else raise (AssertionError EmptyString)
       end ;;
  let ref_xgsd := snd (fst ref_grid) - fst (fst ref_grid) in
  let ref_ygsd := snd (snd ref_grid) - fst (snd ref_grid) in
  (* get out_grid: past the assertions a given grid has two axes and a
     given out_gsd is a sequence of two numbers, so both are true values *)
  match out_grid, out_gsd with
  | Some (gx :: gy :: _), _ =>
      (* output grid is given *)
      ret (gx, gy)
  | _, Some (GsdSeq (out_xgsd :: out_ygsd :: _)) =>
      alignable <- (if align_grids
                    then _grids_alignable (ga_xgsd im2shift)
                           (ga_ygsd im2shift) out_xgsd out_ygsd
                    else ret false) ;;
      if alignable
      then (* use grid of reference image with the given output gsd *)
        ret (get_grid ref_gt out_xgsd out_ygsd)
      else (* use grid of input image with the given output gsd *)
        ret (get_grid (ga_geotransform im2shift) out_xgsd out_ygsd)
  | _, _ =>
      if match_gsd then
        if align_grids
        then (* use reference grid *)
          ret ref_grid
        else (* use grid of input image and reference gsd *)
          ret (get_grid (ga_geotransform im2shift) ref_xgsd ref_ygsd)
      else
        alignable <- (if align_grids
                      then _grids_alignable (ga_xgsd im2shift)
                             (ga_ygsd im2shift) ref_xgsd ref_ygsd
                      else ret false) ;;
        if alignable
        then (* use origin of reference image and gsd of input image *)
          ret (get_grid ref_gt (ga_xgsd im2shift) (ga_ygsd im2shift))
        else (* use input image grid *)
          ret (get_grid (ga_geotransform im2shift)
                 (ga_xgsd im2shift) (ga_ygsd im2shift))
  end.

(** ** [DESHIFTER.__init__]

    [im2shift] is taken as a [GeoArray]; opening one from a path is the
    collaborator's work. *)
Definition __init__ (im2shift : GeoArray) (coreg_results : CoregResults)
    (kwargs : Kwargs) : Raises DESHIFTER :=
  (* unpack args *)
  let shift_prj := ga_projection im2shift in
  let shift_gt := ga_geotransform im2shift in
  let GCPList := cr_GCPList coreg_results in
  let mapI := cr_updated_map_info coreg_results in
  let updated_map_info :=
    match mapI with
    | Some m => m
    | None => geotransform2mapinfo shift_gt shift_prj
    end in
  let original_map_info := cr_original_map_info coreg_results in
  let updated_gt :=
    match mapI with
    | Some _ => mapinfo2geotransform updated_map_info
    | None => shift_gt
    end in
  let ref_gt := cr_reference_geotransform coreg_results in
  let ref_grid := cr_reference_grid coreg_results in
  let ref_prj := cr_reference_projection coreg_results in
  let updated_projection := ref_prj in
  (* unpack kwargs *)
  let path_out := kw_path_out kwargs in
  let fmt_out := kwargs_get (kw_fmt_out kwargs) "ENVI" in
  let band2process := kw_band2process kwargs in
  let nodata := kwargs_get (kw_nodata kwargs) (ga_nodata im2shift) in
  let align_grids := kwargs_get (kw_align_grids kwargs) false in
  let tempAsENVI := kwargs_get (kw_tempAsENVI kwargs) false in
  let outFmt := if negb tempAsENVI then "VRT" else "ENVI" in
  let rspAlg := kwargs_get (kw_resamp_alg kwargs) "cubic" in
  let warpAlg := kwargs_get (kw_warp_alg kwargs) "GDAL_lib" in
  let cliptoextent := kwargs_get (kw_cliptoextent kwargs) true in
  let clipextent := kw_clipextent kwargs in
  let tempDir := kwargs_get (kw_tempDir kwargs) "/dev/shm/" in
  let CPUs := kw_CPUs kwargs in
  let v := kwargs_get (kw_v kwargs) false in
  let q := if negb v then kwargs_get (kw_q kwargs) false else false in
  out_grid <- _get_out_grid im2shift ref_gt ref_grid align_grids kwargs ;;
  let out_gsd := (Qabs (snd (fst out_grid) - fst (fst out_grid)),
                  Qabs (snd (snd out_grid) - fst (snd out_grid))) in
  (* assertions *)
  if negb (str_in rspAlg (dict_keys _dict_rspAlg_rsp_Int))
  then raise (AssertionError
                ("'" ++ rspAlg ++ "' is not a supported resampling algorithm."))
  else if negb (str_in warpAlg ["GDAL_cmd"; "GDAL_lib"])
  then raise (AssertionError EmptyString)
  else
    (* set defaults for general class attributes *)
    ret (mkDESHIFTER im2shift shift_prj shift_gt GCPList updated_map_info
           original_map_info updated_gt ref_gt ref_grid ref_prj
           updated_projection path_out fmt_out band2process nodata
           align_grids outFmt rspAlg warpAlg cliptoextent clipextent tempDir
           CPUs v q out_grid out_gsd false false [] None None).

(** ** [DESHIFTER._get_out_extent]

    The method assigns [self.clipextent] and returns the snapped extent. *)
Definition _get_out_extent (self : DESHIFTER) : DESHIFTER * Raises Extent :=
  let clipextent' :=
    if cliptoextent self && is_None (clipextent self)
    then footprint_poly_bounds (im2shift self)
    else
      let '(xmin, xmax, ymin, ymax) := box_boundsMap (im2shift self) in
      (xmin, ymin, xmax, ymax) in
  let self := set_clipextent (Some clipextent') self in
  (* snap clipextent to output grid *)
  let '(xmin, ymin, xmax, ymax) := clipextent' in
  (self,
   xmin <- find_nearest (fst (out_grid self)) xmin on ;;
   ymin <- find_nearest (snd (out_grid self)) ymin on ;;
   xmax <- find_nearest (fst (out_grid self)) xmax off ;;
   ymax <- find_nearest (fst (out_grid self)) ymax off ;;
   ret (xmin, ymin, xmax, ymax)).

(** ** [DESHIFTER.deshift_results] (a property) *)
Definition deshift_results (self : DESHIFTER) : Results :=
  mkResults (band2process self) (is_shifted self) (is_resampled self)
    (updated_map_info self) (shift_gt self) (updated_projection self)
    (arr_shifted self) (GeoArray_shifted self).

(** ** [DESHIFTER.correct_shifts]

    The method assigns attributes, touches files and returns
    [self.deshift_results] or raises: it maps the object and the files to
    the updated object, the updated files and the outcome. *)

(** The guard of the first branch. *)
Definition no_resampling_needed (self : DESHIFTER) : bool :=
  let equal_prj := prj_equal (ref_prj self) (shift_prj self) in
  equal_prj
  && is_coord_grid_equal (shift_gt self)
       (fst (out_grid self)) (snd (out_grid self))
  && negb (align_grids self).

(** The branch "NO RESAMPLING NEEDED". *)
Definition correct_shifts_no_resampling (self : DESHIFTER) (fs : FS)
  : DESHIFTER * FS * Raises Results :=
  let self := set_is_shifted true self in
  let self := set_is_resampled false self in
  let '(self, extent) := _get_out_extent self in
  match extent with
  | inl e => (self, fs, raise e)
  | inr (xmin, ymin, xmax, ymax) =>
      let '(self, arr) :=
        if cliptoextent self then
          (* get shifted array *)
          let shifted_geoArr :=
            GeoArray_new (ga_getitem_all (im2shift self)) (updated_gt self)
              (shift_prj self) in
          (* clip with target extent *)
          let '(arr, gt, prj) :=
            get_mapPos shifted_geoArr (xmin, ymin, xmax, ymax)
              (shift_prj self) (nodata self) in
          let self := set_arr_shifted (Some arr) self in
          let self := set_updated_gt gt self in
          let self := set_updated_projection prj self in
          (set_updated_map_info
             (geotransform2mapinfo (updated_gt self)
                (updated_projection self))
             self,
           arr)
        else
          (* array keeps the same *)
          let arr := ga_getitem_all (im2shift self) in
          (set_arr_shifted (Some arr) self, arr) in
      let self :=
        set_GeoArray_shifted
          (Some (GeoArray_new arr (shift_gt self) (updated_projection self)))
          self in
      let fs :=
        if truthy_str (path_out self)
        then ga_save
               (GeoArray_new arr (updated_gt self) (updated_projection self))
               (kwargs_get (path_out self) EmptyString) (fmt_out self) fs
        else fs in
      (self, fs, ret (deshift_results self))
  end.

(** The branch [self.warpAlg == 'GDAL_cmd'].  Past the test of the exit
    code the file is opened and read; an error raised there leaves the
    method before the flags are set and before the temp file is deleted,
    and it is not recorded in [tracked_errors]. *)
Definition correct_shifts_GDAL_cmd (self : DESHIFTER) (fs : FS)
  : DESHIFTER * FS * Raises Results :=
  (* create tempfile *)
  let '(path_tmp, fs) :=
    mkstemp "CoReg_Sat" (outFmt self) (tempDir self) fs in
  let '(self, extent) := _get_out_extent self in
  match extent with
  | inl e => (self, fs, raise e)
  | inr t_extent =>
      let cmd :=
        mkWarpCmd (rspAlg self) (out_gsd self) (ref_prj self) (outFmt self)
          (ga_filePath (im2shift self)) path_tmp (nodata self) (nodata self)
          t_extent in
      let '((out, exitcode, err), fs) := subcall_with_output cmd fs in
      if negb (exitcode =? 1)%Z && path_exists path_tmp fs then
        (* update map info, arr_shifted, geotransform and projection *)
        match gdal_open path_tmp fs with
        | inl e => (self, fs, raise e)
        | inr (gt, prj) =>
            let self := set_shift_gt gt self in
            let self := set_shift_prj prj self in
            let self :=
              set_updated_map_info
                (geotransform2mapinfo (shift_gt self) (shift_prj self))
                self in
            let read :=
              match band2process self with
              | None =>
                  arr <- rasterio_read path_tmp fs None ;;
                  ret (swapaxes (swapaxes arr 0 2) 0 1)
              | Some band => rasterio_read path_tmp fs (Some band)
              end in
            match read with
            | inl e => (self, fs, raise e)
            | inr arr =>
                let self := set_arr_shifted (Some arr) self in
                let self :=
                  set_GeoArray_shifted
                    (Some (GeoArray_new arr (shift_gt self) (shift_prj self)))
                    self in
                let self := set_is_shifted true self in
                let self := set_is_resampled true self in
                (* delete tempfiles *)
                let fs := unlink_if_exists path_tmp fs in
                (self, fs, ret (deshift_results self))
            end
        end
      else
        (* delete tempfiles *)
        let fs := unlink_if_exists path_tmp fs in
        let self :=
          set_tracked_errors
            (tracked_errors self ++ [RuntimeError "Resampling failed."])
            self in
        (self, fs,
         raise (last (tracked_errors self) (RuntimeError EmptyString)))
  end.

(** The arguments of the call of [warp_ndarray] in the branch
    [self.warpAlg == 'GDAL_lib'], with the object as it is when the call
    is made. *)
Definition GDAL_lib_warp_call (self : DESHIFTER)
  : DESHIFTER * Raises (WarpArgs Arr GCP) :=
  (* apply XY-shifts to shift_gt *)
  let in_arr :=
    if truthy_int (band2process self)
    then ga_getitem (im2shift self) (kwargs_get (band2process self) 0%Z)
    else ga_getitem_all (im2shift self) in
  let self :=
    if negb (truthy_list (GCPList self))
    then set_shift_gt
           (set_origin (shift_gt self)
              (gt0 (updated_gt self)) (gt3 (updated_gt self)))
           self
    else self in
  (* get resampled array *)
  match dict_get _dict_rspAlg_rsp_Int (rspAlg self) with
  | None => (self, raise (KeyError (rspAlg self)))
  | Some rsp =>
      let in_gt := shift_gt self in
      let '(self, extent) := _get_out_extent self in
      (self,
       out_bounds <- extent ;;
       ret (mkWarpArgs in_arr in_gt (shift_prj self) (ref_prj self)
              rsp (nodata self) (nodata self) (out_gsd self)
              out_bounds (GCPList self) (CPUs self) (q self)))
  end.

Definition correct_shifts_GDAL_lib (self : DESHIFTER) (fs : FS)
  : DESHIFTER * FS * Raises Results :=
  let '(self, call) := GDAL_lib_warp_call self in
  match call with
  | inl e => (self, fs, raise e)
  | inr args =>
      let '(out_arr, out_gt, out_prj) := warp_ndarray args in
      let self := set_updated_projection out_prj self in
      let self := set_arr_shifted (Some out_arr) self in
      let self :=
        set_updated_map_info (geotransform2mapinfo out_gt out_prj) self in
      let self :=
        set_shift_gt (mapinfo2geotransform (updated_map_info self)) self in
      let self :=
        set_GeoArray_shifted
          (Some (GeoArray_new out_arr (shift_gt self)
                   (updated_projection self)))
          self in
      let self := set_is_shifted true self in
      let self := set_is_resampled true self in
      let fs :=
        if truthy_str (path_out self)
        then ga_save (GeoArray_new out_arr out_gt out_prj)
               (kwargs_get (path_out self) EmptyString) (fmt_out self) fs
        else fs in
      (self, fs, ret (deshift_results self))
  end.

(** The branch "RESAMPLING NEEDED". *)
Definition correct_shifts_resampling (self : DESHIFTER) (fs : FS)
  : DESHIFTER * FS * Raises Results :=
  if String.eqb (warpAlg self) "GDAL_cmd"
  then correct_shifts_GDAL_cmd self fs
  else if String.eqb (warpAlg self) "GDAL_lib"
  then correct_shifts_GDAL_lib self fs
  else (self, fs, ret (deshift_results self)).

Definition correct_shifts (self : DESHIFTER) (fs : FS)
  : DESHIFTER * FS * Raises Results :=
  if no_resampling_needed self
  then correct_shifts_no_resampling self fs
  else correct_shifts_resampling self fs.

End Model.

(** ** A concrete set of collaborators

    A small instance of [Collaborators] on which the methods can be run.
    An array is identified with the window of the scene that its pixels
    show, and a raster places its array on the map by its geotransform.
    The exit code of the warp command, whether its output file is still
    there and whether GDAL can open that file are parameters. *)
Module Sample.

Record Raster : Type := mkRaster {
  r_pixels : Extent;
  r_gt : Geotransform;
  r_prj : string;
  r_nodata : option Q;
  r_footprint : Extent;
  r_box : BoundsMap;
  r_path : string
}.

Definition box_of_window (e : Extent) : BoundsMap :=
  let '(xmin, ymin, xmax, ymax) := e in (xmin, xmax, ymin, ymax).

(** The sub-window at the given map coordinates: the part of the scene
    that the raster shows there, with a geotransform that starts at the
    upper left corner of the extent. *)
Definition clip (r : Raster) (e : Extent) (prj : string) (fill : option Q)
  : Extent * Geotransform * string :=
  let '(xmin, ymin, xmax, ymax) := e in
  let '(pxmin, pymin, pxmax, pymax) := r_pixels r in
  let dx := pxmin - gt0 (r_gt r) in
  let dy := pymax - gt3 (r_gt r) in
  ((xmin + dx, ymin + dy, xmax + dx, ymax + dy),
   set_origin (r_gt r) xmin ymax, prj).

(** The geotransform lies on the grid: same origin and same next line on
    each axis. *)
Definition same_grid (gt : Geotransform) (xgrid ygrid : Axis) : bool :=
  Qeq_bool (gt0 gt) (fst xgrid)
  && Qeq_bool (gt0 gt + gt1 gt) (snd xgrid)
  && Qeq_bool (gt3 gt) (fst ygrid)
  && Qeq_bool (gt3 gt + gt5 gt) (snd ygrid).

Definition warp (a : WarpArgs Extent (Q * Q * Q * Q))
  : Extent * Geotransform * string :=
  let '(xmin, ymin, xmax, ymax) := wa_out_bounds a in
  (wa_out_bounds a,
   mkGT xmin (fst (wa_out_gsd a)) 0 ymax 0 (- snd (wa_out_gsd a)),
   wa_out_prj a).

(** The scene has one band.  A file that GDAL cannot open gives [None],
    and the call of [GetGeoTransform] on it raises. *)
Definition collaborators_with (exitcode : Z) (keeps_output readable : bool)
  : Collaborators Extent (Geotransform * string) (Q * Q * Q * Q) Raster :=
  {| ga_projection := r_prj;
     ga_geotransform := r_gt;
     ga_nodata := r_nodata;
     ga_xgsd := fun r => gt1 (r_gt r);
     ga_ygsd := fun r => Qabs (gt5 (r_gt r));
     ga_filePath := r_path;
     footprint_poly_bounds := r_footprint;
     box_boundsMap := r_box;
     ga_getitem_all := r_pixels;
     ga_getitem := fun r _ => r_pixels r;
     GeoArray_new := fun arr gt prj =>
       mkRaster arr gt prj None arr (box_of_window arr) EmptyString;
     get_mapPos := clip;
     ga_save := fun _ path _ fs => path :: fs;
     mapinfo2geotransform := fst;
     geotransform2mapinfo := pair;
     is_coord_grid_equal := same_grid;
     prj_equal := String.eqb;
     warp_ndarray := warp;
     mkstemp := fun prefix suffix dir fs =>
       (dir ++ prefix ++ "0" ++ suffix, (dir ++ prefix ++ "0" ++ suffix) :: fs);
     subcall_with_output := fun cmd fs =>
       ((EmptyString, exitcode, EmptyString),
        if keeps_output then fs
        else filter (fun f => negb (String.eqb (cmd_dst cmd) f)) fs);
     gdal_open := fun _ _ =>
       if readable then ret (mkGT 0 10 0 100 0 (-10), "EPSG:32633")
       else
         raise (AttributeError
                  "'NoneType' object has no attribute 'GetGeoTransform'");
     rasterio_read := fun _ _ band =>
       match band with
       | Some b =>
           if (b =? 1)%Z then ret (0, 0, 100, 100)
           else raise (IndexError "band index out of range")
       | None => ret (0, 0, 100, 100)
       end;
     swapaxes := fun a _ _ => a |}.

(** The collaborators when the file [gdalwarp] wrote can be opened. *)
Definition collaborators (exitcode : Z) (keeps_output : bool)
  : Collaborators Extent (Geotransform * string) (Q * Q * Q * Q) Raster :=
  collaborators_with exitcode keeps_output true.

(** An image of 10-unit pixels with upper left corner (0, 100), valid data
    inside (25, 25, 75, 75). *)
Definition image : Raster :=
  mkRaster (0, 0, 100, 100) (mkGT 0 10 0 100 0 (-10)) "EPSG:32633" None
    (25, 25, 75, 75) (0, 100, 0, 100) "/data/image.bsq".

(** The same pixels, georeferenced from (5, 95): its box is
    (5, 95, 5, 95). *)
Definition image_odd : Raster :=
  mkRaster (5, 5, 95, 95) (mkGT 5 10 0 95 0 (-10)) "EPSG:32633" None
    (5, 5, 95, 95) (5, 95, 5, 95) "/data/image_odd.bsq".

(** A larger image whose box is (3, 197, 3, 197). *)
Definition image_large : Raster :=
  mkRaster (3, 3, 197, 197) (mkGT 3 10 0 197 0 (-10)) "EPSG:32633" None
    (33, 33, 167, 167) (3, 197, 3, 197) "/data/image_large.bsq".

(** Results of a co-registration against a reference with grid
    [[0, 10], [100, 90]]: the image is to be moved by (2, -3). *)
Definition coreg (gcps : option (list (Q * Q * Q * Q)))
  : CoregResults (MapInfo := Geotransform * string) :=
  mkCoregResults gcps
    (Some (mkGT 2 10 0 97 0 (-10), "EPSG:32633"))
    (mkGT 0 10 0 100 0 (-10), "EPSG:32633")
    (mkGT 0 10 0 100 0 (-10)) ((0, 10), (100, 90)) "EPSG:32633".

(** No keyword given. *)
Definition kw_default : Kwargs :=
  mkKwargs None None None None None None None None None None None None None
    None None None None.

(** [out_gsd=..., align_grids=True] *)
Definition kw_out_gsd_aligned (gsd : PyGsd) : Kwargs :=
  mkKwargs None None None None (Some true) None None None None None None None
    None None (Some gsd) None None.

(** [resamp_alg=..., warp_alg=...] *)
Definition kw_algs (resamp_alg warp_alg : string) : Kwargs :=
  mkKwargs None None None None None None (Some resamp_alg) (Some warp_alg)
    None None None None None None None None None.

(** [warp_alg=..., align_grids=True] *)
Definition kw_warp_aligned (warp_alg : string) : Kwargs :=
  mkKwargs None None None None (Some true) None None (Some warp_alg)
    None None None None None None None None None.

(** [clipextent=..., target_xyGrid=...] *)
Definition kw_clip (e : Extent) (grid : list Axis) : Kwargs :=
  mkKwargs None None None None None None None None None (Some e) None None
    None None None None (Some grid).

(** [v=..., q=...] *)
Definition kw_vq (v q : bool) : Kwargs :=
  mkKwargs None None None None None None None None None None None None
    (Some v) (Some q) None None None.

(** [cliptoextent=False] *)
Definition kw_noclip : Kwargs :=
  mkKwargs None None None None None None None None (Some false) None None
    None None None None None None.

(** The object that [__init__] builds from an image, the results above
    and the options that the examples vary. *)
Definition Engine : Type :=
  DESHIFTER (Arr := Extent) (MapInfo := Geotransform * string)
    (GCP := Q * Q * Q * Q) (GeoArray := Raster).

Definition engine (im : Raster) (gcps : option (list (Q * Q * Q * Q)))
    (warp_alg : string) (align_grids cliptoextent : bool)
    (clipextent : option Extent) (out_grid : Grid) : Engine :=
  mkDESHIFTER im (r_prj im) (r_gt im) gcps
    (mkGT 2 10 0 97 0 (-10), "EPSG:32633")
    (mkGT 0 10 0 100 0 (-10), "EPSG:32633")
    (mkGT 2 10 0 97 0 (-10)) (mkGT 0 10 0 100 0 (-10))
    ((0, 10), (100, 90)) "EPSG:32633" "EPSG:32633" None "ENVI" None
    (r_nodata im) align_grids "VRT" "cubic" warp_alg cliptoextent clipextent
    "/dev/shm/" None false false out_grid (10, 10) false false [] None None.


(** A warp command that exits with 0 and leaves its output. *)
#[export] Instance ok
  : Collaborators Extent (Geotransform * string) (Q * Q * Q * Q) Raster :=
  collaborators 0 true.

End Sample.

(** * Properties *)

(** ** Rounding onto a grid axis *)

Lemma Qmin_Qmax_cases (a b : Q) :
  (a <= b /\ Qmin a b = a /\ Qmax a b = b)
  \/ (b < a /\ Qmin a b = b /\ Qmax a b = a).
Proof.
  unfold Qmin, Qmax. destruct (Qle_bool a b) eqn:E.
  - left. apply Qle_bool_iff in E. auto.
  - right. split; [|auto].
    apply Qnot_le_lt. intro H. apply Qle_bool_iff in H. congruence.
Qed.

Lemma increment_pos (a b : Q) :
  Qeq_bool (Qabs (Qmax a b - Qmin a b)) 0 = false ->
  0 < Qabs (Qmax a b - Qmin a b).
Proof.
  intro E. apply Qeq_bool_neq in E.
  assert (H := Qabs_nonneg (Qmax a b - Qmin a b)).
  apply Qle_lteq in H. destruct H as [H|H]; [exact H|].
  exfalso. apply E. symmetry. exact H.
Qed.

Lemma find_nearest_on_ge (array : Axis) (value r : Q) :
  find_nearest array value on = inr r -> value <= r.
Proof.
  unfold find_nearest.
  set (lo := Qmin (fst array) (snd array)).
  set (inc := Qabs (Qmax (fst array) (snd array) - lo)).
  destruct (Qeq_bool inc 0) eqn:E; [discriminate|].
  apply increment_pos in E. fold lo in E. fold inc in E.
  unfold ret. intro H.
  assert (Hr : r = lo + inc * inject_Z (Qceiling ((value - lo) / inc)))
    by congruence.
  rewrite Hr. clear H Hr.
  assert (Hk := Qle_ceiling ((value - lo) / inc)).
  apply (Qmult_le_l _ _ inc E) in Hk.
  rewrite Qmult_div_r in Hk by (intro Z0; rewrite Z0 in E; discriminate).
  lra.
Qed.

Lemma find_nearest_off_le (array : Axis) (value r : Q) :
  find_nearest array value off = inr r -> r <= value.
Proof.
  unfold find_nearest.
  set (lo := Qmin (fst array) (snd array)).
  set (inc := Qabs (Qmax (fst array) (snd array) - lo)).
  destruct (Qeq_bool inc 0) eqn:E; [discriminate|].
  apply increment_pos in E. fold lo in E. fold inc in E.
  unfold ret. intro H.
  assert (Hr : r = lo + inc * inject_Z (Qfloor ((value - lo) / inc)))
    by congruence.
  rewrite Hr. clear H Hr.
  assert (Hk := Qfloor_le ((value - lo) / inc)).
  apply (Qmult_le_l _ _ inc E) in Hk.
  rewrite Qmult_div_r in Hk by (intro Z0; rewrite Z0 in E; discriminate).
  lra.
Qed.

Lemma lattice_on_grid_line (array : Axis) (n : Z) :
  on_grid_line array
    (Qmin (fst array) (snd array)
     + Qabs (Qmax (fst array) (snd array) - Qmin (fst array) (snd array))
       * inject_Z n).
Proof.
  destruct array as [a b]. unfold on_grid_line. cbn [fst snd].
  destruct (Qmin_Qmax_cases a b) as [(Hab & -> & ->)|(Hab & -> & ->)].
  - exists n.
    assert (Ha : Qabs (b - a) == b - a) by (apply Qabs_pos; lra).
    rewrite Ha. reflexivity.
  - exists (1 - n)%Z.
    assert (Ha : Qabs (a - b) == a - b) by (apply Qabs_pos; lra).
    rewrite Ha. unfold Z.sub. rewrite inject_Z_plus, inject_Z_opp. ring.
Qed.

Lemma find_nearest_on_grid (array : Axis) (value r : Q) (alg : RoundAlg) :
  find_nearest array value alg = inr r -> on_grid_line array r.
Proof.
  unfold find_nearest.
  destruct (Qeq_bool _ 0); [discriminate|].
  unfold ret.
  destruct alg; intro H;
    match type of H with inr ?x = _ => assert (Hr : r = x) by congruence end;
    rewrite Hr; apply lattice_on_grid_line.
Qed.

(** ** The clip extent: [_get_out_extent] *)

Section Extent.
Context {Arr MapInfo GCP GeoArray : Type}.
Context {C : Collaborators Arr MapInfo GCP GeoArray}.

(** What a returning call of [_get_out_extent] has done: the four corners
    of the stored [clipextent] went through [find_nearest], the last one
    on the x axis of the grid. *)
Lemma _get_out_extent_returns (self self' : DESHIFTER)
    (xmin ymin xmax ymax : Q) :
  _get_out_extent self = (self', inr (xmin, ymin, xmax, ymax)) ->
  exists x0 y0 x1 y1,
    clipextent self' = Some (x0, y0, x1, y1)
    /\ out_grid self' = out_grid self
    /\ find_nearest (fst (out_grid self)) x0 on = inr xmin
    /\ find_nearest (snd (out_grid self)) y0 on = inr ymin
    /\ find_nearest (fst (out_grid self)) x1 off = inr xmax
    /\ find_nearest (fst (out_grid self)) y1 off = inr ymax.
Proof.
  unfold _get_out_extent.
  set (e := if cliptoextent self && is_None (clipextent self)
            then _ else _).
  destruct e as [[[x0 y0] x1] y1]. cbn [out_grid set_clipextent].
  intro H. injection H as <- H.
  exists x0, y0, x1, y1. cbn [clipextent set_clipextent].
  destruct (find_nearest (fst (out_grid self)) x0 on) as [?|a]; [discriminate|].
  destruct (find_nearest (snd (out_grid self)) y0 on) as [?|b]; [discriminate|].
  destruct (find_nearest (fst (out_grid self)) x1 off) as [?|c]; [discriminate|].
  destruct (find_nearest (fst (out_grid self)) y1 off) as [?|d]; [discriminate|].
  cbn in H. unfold ret in H.
  assert (a = xmin /\ b = ymin /\ c = xmax /\ d = ymax) as (-> & -> & -> & ->)
    by (repeat split; congruence).
  repeat split; reflexivity.
Qed.

(** The extent that is snapped is the data footprint when clipping is
    requested and no extent was given, and the box of the image in every
    other case, a given extent included. *)
Lemma _get_out_extent_resolves (self : DESHIFTER) :
  clipextent (fst (_get_out_extent self))
  = Some (if cliptoextent self && is_None (clipextent self)
          then footprint_poly_bounds (im2shift self)
          else let '(xmin, xmax, ymin, ymax) := box_boundsMap (im2shift self) in
               (xmin, ymin, xmax, ymax)).
Proof.
  unfold _get_out_extent.
  destruct (if cliptoextent self && is_None (clipextent self) then _ else _)
    as [[[x0 y0] x1] y1].
  reflexivity.
Qed.

(** Three corners of a returned extent lie on the grid axis of their own,
    and ymax lies on a line of the x axis. *)
Lemma _get_out_extent_on_grid (self self' : DESHIFTER)
    (xmin ymin xmax ymax : Q) :
  _get_out_extent self = (self', inr (xmin, ymin, xmax, ymax)) ->
  on_grid_line (fst (out_grid self)) xmin
  /\ on_grid_line (snd (out_grid self)) ymin
  /\ on_grid_line (fst (out_grid self)) xmax
  /\ on_grid_line (fst (out_grid self)) ymax.
Proof.
  intro H. apply _get_out_extent_returns in H.
  destruct H as (x0 & y0 & x1 & y1 & _ & _ & Hx0 & Hy0 & Hx1 & Hy1).
  repeat split; eapply find_nearest_on_grid; eassumption.
Qed.

(** C2, as the code has it: snapping moves every corner of the resolved
    clip extent onto a grid line inside the extent, never outside.  The
    snapped xmin and ymin are greater than or equal to the values before
    snapping, the snapped xmax and ymax are less than or equal to them. *)
Theorem snapped_extent_lies_inside (self self' : DESHIFTER)
    (x0 y0 x1 y1 xmin ymin xmax ymax : Q) :
  _get_out_extent self = (self', inr (xmin, ymin, xmax, ymax)) ->
  clipextent self' = Some (x0, y0, x1, y1) ->
  x0 <= xmin /\ y0 <= ymin /\ xmax <= x1 /\ ymax <= y1.
Proof.
  intros H Hc. apply _get_out_extent_returns in H.
  destruct H as (a & b & c & d & Hc' & _ & Hx0 & Hy0 & Hx1 & Hy1).
  rewrite Hc in Hc'. injection Hc' as <- <- <- <-.
  split; [|split; [|split]].
  - exact (find_nearest_on_ge _ _ _ Hx0).
  - exact (find_nearest_on_ge _ _ _ Hy0).
  - exact (find_nearest_off_le _ _ _ Hx1).
  - exact (find_nearest_off_le _ _ _ Hy1).
Qed.

End Extent.

Import Sample.

(** Evaluation of the methods on the sample collaborators. *)
Ltac conjuncts := repeat match goal with |- _ /\ _ => split end.
Ltac run := vm_compute; reflexivity.

(** C1: an extent given as [clipextent=(53, 53, 147, 147)] is replaced by
    the box of the image, (3, 3, 197, 197), before snapping; the returned
    extent is the snapped box, while the given corners would have snapped
    to (60, 60, 140, 140). *)
Theorem given_clipextent_is_replaced_by_box :
  let self : Engine :=
    engine image_large None "GDAL_lib" false true
      (Some (53, 53, 147, 147)) ((0, 10), (200, 190)) in
  __init__ image_large (coreg None)
    (kw_clip (53, 53, 147, 147) [(0, 10); (200, 190)]) = inr self
  /\ _get_out_extent self
     = (set_clipextent (Some (3, 3, 197, 197)) self,
        inr (10, 10, 190, 190))
  /\ find_nearest (fst (out_grid self)) 53 on = inr 60
  /\ find_nearest (snd (out_grid self)) 53 on = inr 60
  /\ find_nearest (fst (out_grid self)) 147 off = inr 140
  /\ find_nearest (snd (out_grid self)) 147 off = inr 140.
Proof.
  intro self. conjuncts; run.
Qed.

(** C2 fails as stated: the extent (5, 5, 95, 95) on a grid of pitch 10
    starting at 0 snaps to (10, 10, 90, 90), not to (0, 0, 100, 100); the
    snapped xmin is above 5 and the snapped xmax below 95. *)
Lemma snap_5_95_moves_inside :
  let self : Engine :=
    engine image_odd None "GDAL_lib" false true (Some (5, 5, 95, 95))
      ((0, 10), (0, -10)) in
  __init__ image_odd (coreg None)
    (kw_clip (5, 5, 95, 95) [(0, 10); (0, -10)]) = inr self
  /\ _get_out_extent self
     = (set_clipextent (Some (5, 5, 95, 95)) self, inr (10, 10, 90, 90))
  /\ ~ (10 <= 5) /\ ~ (95 <= 90).
Proof.
  intro self. conjuncts; try run; intro H; lra.
Qed.

(** The extent (5, 5, 95, 95) on the grid of pitch 10 starting at 0. *)
Lemma snapped_extent_lies_inside_witness :
  let self : Engine :=
    engine image_odd None "GDAL_lib" false true (Some (5, 5, 95, 95))
      ((0, 10), (0, -10)) in
  let self' := set_clipextent (Some (5, 5, 95, 95)) self in
  _get_out_extent self = (self', inr (10, 10, 90, 90))
  /\ clipextent self' = Some (5, 5, 95, 95)
  /\ (5 <= 10 /\ 5 <= 10 /\ 90 <= 95 /\ 90 <= 95).
Proof.
  intros self self'.
  assert (H1 : _get_out_extent self = (self', inr (10, 10, 90, 90)))
    by (vm_compute; reflexivity).
  assert (H2 : clipextent self' = Some (5, 5, 95, 95)) by reflexivity.
  exact (conj H1 (conj H2
     (snapped_extent_lies_inside self self' 5 5 95 95 10 10 90 90 H1 H2))).
Defined.

(** C3: with x axis [[0, 10]] and y axis [[103, 93]] the extent
    (5, 5, 95, 95) is returned as (10, 13, 90, 90): ymax went through the
    x axis, [self.out_grid[0]], and 90 is no line of the y axis, whose
    line below 95 is 93. *)
Theorem ymax_is_snapped_to_the_x_axis :
  let self : Engine :=
    engine image_odd None "GDAL_lib" false true (Some (5, 5, 95, 95))
      ((0, 10), (103, 93)) in
  __init__ image_odd (coreg None)
    (kw_clip (5, 5, 95, 95) [(0, 10); (103, 93)]) = inr self
  /\ _get_out_extent self
     = (set_clipextent (Some (5, 5, 95, 95)) self, inr (10, 13, 90, 90))
  /\ find_nearest (fst (out_grid self)) 95 off = inr 90
  /\ find_nearest (snd (out_grid self)) 95 off = inr 93
  /\ on_grid_line (snd (out_grid self)) 13
  /\ ~ on_grid_line (snd (out_grid self)) 90.
Proof.
  intro self. conjuncts; try run.
  - exists 9%Z. run.
  - intros [k Hk]. cbn [self engine out_grid snd fst] in Hk.
    assert (H : inject_Z k == 13 # 10) by lra.
    unfold Qeq, inject_Z in H. cbn [Qnum Qden] in H. lia.
Qed.

(** ** The correction paths: [correct_shifts] *)

Section Paths.
Context {Arr MapInfo GCP GeoArray : Type}.
Context {C : Collaborators Arr MapInfo GCP GeoArray}.

(** Reading and assigning attributes of an object given by its fields. *)
Tactic Notation "attributes" :=
  cbv [
    im2shift shift_prj shift_gt GCPList updated_map_info
    original_map_info updated_gt ref_gt ref_grid ref_prj
    updated_projection path_out fmt_out band2process nodata align_grids
    outFmt rspAlg warpAlg cliptoextent clipextent tempDir CPUs v q
    out_grid out_gsd is_shifted is_resampled tracked_errors arr_shifted
    GeoArray_shifted set_shift_prj set_shift_gt set_updated_map_info
    set_updated_gt set_updated_projection set_clipextent set_is_shifted
    set_is_resampled set_tracked_errors set_arr_shifted
    set_GeoArray_shifted].
Tactic Notation "attributes" "in" hyp(H) :=
  cbv [
    im2shift shift_prj shift_gt GCPList updated_map_info
    original_map_info updated_gt ref_gt ref_grid ref_prj
    updated_projection path_out fmt_out band2process nodata align_grids
    outFmt rspAlg warpAlg cliptoextent clipextent tempDir CPUs v q
    out_grid out_gsd is_shifted is_resampled tracked_errors arr_shifted
    GeoArray_shifted set_shift_prj set_shift_gt set_updated_map_info
    set_updated_gt set_updated_projection set_clipextent set_is_shifted
    set_is_resampled set_tracked_errors set_arr_shifted
    set_GeoArray_shifted] in H.

(** [_get_out_extent] assigns [clipextent] and nothing else. *)
Lemma _get_out_extent_assigns (self : DESHIFTER) :
  exists e, fst (_get_out_extent self) = set_clipextent (Some e) self.
Proof.
  unfold _get_out_extent.
  destruct (if cliptoextent self && is_None (clipextent self) then _ else _)
    as [[[x0 y0] x1] y1].
  eexists. reflexivity.
Qed.

Lemma no_resampling_needed_iff (self : DESHIFTER) :
  no_resampling_needed self = true
  <-> prj_equal (ref_prj self) (shift_prj self) = true
      /\ is_coord_grid_equal (shift_gt self)
           (fst (out_grid self)) (snd (out_grid self)) = true
      /\ align_grids self = false.
Proof.
  unfold no_resampling_needed.
  rewrite !andb_true_iff, negb_true_iff. tauto.
Qed.

(** The flags after a returning run of each branch. *)
Lemma no_resampling_flags (self self' : DESHIFTER) (fs fs' : FS)
    (r : Results) :
  correct_shifts_no_resampling self fs = (self', fs', inr r) ->
  r = deshift_results self'
  /\ is_shifted self' = true /\ is_resampled self' = false.
Proof.
  unfold correct_shifts_no_resampling.
  destruct (_get_out_extent_assigns
              (set_is_resampled false (set_is_shifted true self))) as [e He].
  destruct (_get_out_extent _) as [s1 ext]. cbn [fst] in He. subst s1.
  destruct ext as [exn|[[[xmin ymin] xmax] ymax]]; [discriminate|].
  destruct (cliptoextent _).
  - destruct (get_mapPos _ _ _ _) as [[arr gt] prj].
    intro H. injection H as <- _ <-. repeat split.
  - intro H. injection H as <- _ <-. repeat split.
Qed.

Lemma GDAL_cmd_flags (self self' : DESHIFTER) (fs fs' : FS) (r : Results) :
  correct_shifts_GDAL_cmd self fs = (self', fs', inr r) ->
  r = deshift_results self'
  /\ is_shifted self' = true /\ is_resampled self' = true.
Proof.
  unfold correct_shifts_GDAL_cmd.
  destruct (mkstemp _ _ _ _) as [path_tmp fs1].
  destruct (_get_out_extent self) as [s1 ext].
  destruct ext as [exn|t_extent]; [discriminate|].
  destruct (subcall_with_output _ _) as [[[out exitcode] err] fs2].
  destruct (negb (exitcode =? 1)%Z && path_exists path_tmp fs2).
  - destruct (gdal_open _ _) as [e|[gt prj]]; [discriminate|].
    cbv zeta.
    destruct (match band2process _ with None => _ | Some _ => _ end)
      as [e|arr]; [discriminate|].
    intro H. injection H as <- _ <-. repeat split.
  - discriminate.
Qed.

Lemma GDAL_lib_flags (self self' : DESHIFTER) (fs fs' : FS) (r : Results) :
  correct_shifts_GDAL_lib self fs = (self', fs', inr r) ->
  r = deshift_results self'
  /\ is_shifted self' = true /\ is_resampled self' = true.
Proof.
  unfold correct_shifts_GDAL_lib.
  destruct (GDAL_lib_warp_call self) as [s1 call].
  destruct call as [exn|args]; [discriminate|].
  destruct (warp_ndarray args) as [[out_arr out_gt] out_prj].
  intro H. injection H as <- _ <-. repeat split.
Qed.

(** The first branch sets both flags before anything can raise. *)
Lemma no_resampling_sets_flags (self self' : DESHIFTER) (fs fs' : FS)
    (outcome : Raises Results) :
  correct_shifts_no_resampling self fs = (self', fs', outcome) ->
  is_shifted self' = true /\ is_resampled self' = false.
Proof.
  unfold correct_shifts_no_resampling.
  destruct (_get_out_extent_assigns
              (set_is_resampled false (set_is_shifted true self))) as [e He].
  destruct (_get_out_extent _) as [s1 ext]. cbn [fst] in He. subst s1.
  destruct ext as [exn|[[[xmin ymin] xmax] ymax]].
  - intro H. injection H as <- _ _. split; reflexivity.
  - destruct (cliptoextent _).
    + destruct (get_mapPos _ _ _ _) as [[arr gt] prj].
      intro H. injection H as <- _ _. split; reflexivity.
    + intro H. injection H as <- _ _. split; reflexivity.
Qed.

(** The second branch sets the flags last: a run of it that raises has
    left them as they were. *)
Lemma GDAL_cmd_raise_keeps_flags (self self' : DESHIFTER) (fs fs' : FS)
    (e : PyExn) :
  correct_shifts_GDAL_cmd self fs = (self', fs', inl e) ->
  is_shifted self' = is_shifted self
  /\ is_resampled self' = is_resampled self.
Proof.
  unfold correct_shifts_GDAL_cmd.
  destruct (mkstemp _ _ _ _) as [path_tmp fs1].
  destruct (_get_out_extent_assigns self) as [ext He].
  destruct (_get_out_extent self) as [s1 extent]. cbn [fst] in He. subst s1.
  destruct extent as [exn|t_extent].
  - intro H. injection H as <- _ _. split; reflexivity.
  - destruct (subcall_with_output _ _) as [[[out exitcode] err] fs2].
    destruct (negb (exitcode =? 1)%Z && path_exists path_tmp fs2).
    + destruct (gdal_open _ _) as [exn|[gt prj]].
      * intro H. injection H as <- _ _. split; reflexivity.
      * cbv zeta.
        destruct (match band2process _ with None => _ | Some _ => _ end)
          as [exn|arr]; [|discriminate].
        intro H. injection H as <- _ _. split; reflexivity.
    + intro H. injection H as <- _ _. split; reflexivity.
Qed.

Lemma GDAL_lib_raise_keeps_flags (self self' : DESHIFTER) (fs fs' : FS)
    (e : PyExn) :
  correct_shifts_GDAL_lib self fs = (self', fs', inl e) ->
  is_shifted self' = is_shifted self
  /\ is_resampled self' = is_resampled self.
Proof.
  unfold correct_shifts_GDAL_lib, GDAL_lib_warp_call.
  set (s0 := if negb (truthy_list (GCPList self)) then _ else self).
  assert (Hs0 : is_shifted s0 = is_shifted self
                 /\ is_resampled s0 = is_resampled self)
    by (subst s0; destruct (negb _); split; reflexivity).
  destruct (dict_get _ _) as [rsp|].
  - destruct (_get_out_extent_assigns s0) as [ext He].
    destruct (_get_out_extent s0) as [s1 extent]. cbn [fst] in He. subst s1.
    destruct extent as [exn|out_bounds]; cbn [bind ret].
    + intro H. injection H as <- _ _. exact Hs0.
    + destruct (warp_ndarray _) as [[out_arr out_gt] out_prj]. discriminate.
  - intro H. injection H as <- _ _. exact Hs0.
Qed.

Lemma resampling_raise_keeps_flags (self self' : DESHIFTER) (fs fs' : FS)
    (e : PyExn) :
  correct_shifts_resampling self fs = (self', fs', inl e) ->
  is_shifted self' = is_shifted self
  /\ is_resampled self' = is_resampled self.
Proof.
  unfold correct_shifts_resampling.
  destruct (String.eqb (warpAlg self) "GDAL_cmd");
    [apply GDAL_cmd_raise_keeps_flags|].
  destruct (String.eqb (warpAlg self) "GDAL_lib");
    [apply GDAL_lib_raise_keeps_flags|].
  discriminate.
Qed.

(** C4: the branch "NO RESAMPLING NEEDED" is taken if and only if the
    projections are equal, the geotransform of the image coincides with
    the output grid and [align_grids] is false; the other branch is taken
    otherwise, whether the run returns or raises.  The first branch leaves
    [is_shifted] true and [is_resampled] false on the object; a run of the
    other branch that raises leaves both flags as they were.  After a run
    that returns, with one of the two warp strategies that the constructor
    admits, [is_shifted] is true on the object, [is_resampled] is false
    exactly after the first branch and true exactly after the other, and
    the returned record reports both flags of the object. *)
Theorem correct_shifts_path_and_flags (self : DESHIFTER) (fs : FS) :
  let no_resample :=
    prj_equal (ref_prj self) (shift_prj self) = true
    /\ is_coord_grid_equal (shift_gt self)
         (fst (out_grid self)) (snd (out_grid self)) = true
    /\ align_grids self = false in
  let '(self', fs', outcome) := correct_shifts self fs in
  (no_resample ->
   correct_shifts self fs = correct_shifts_no_resampling self fs
   /\ is_shifted self' = true /\ is_resampled self' = false)
  /\ (~ no_resample ->
      correct_shifts self fs = correct_shifts_resampling self fs
      /\ forall e : PyExn,
           outcome = inl e ->
           is_shifted self' = is_shifted self
           /\ is_resampled self' = is_resampled self)
  /\ (warpAlg self = "GDAL_cmd" \/ warpAlg self = "GDAL_lib" ->
      forall r : Results,
        outcome = inr r ->
        is_shifted self' = true
        /\ (is_resampled self' = false <-> no_resample)
        /\ (is_resampled self' = true <-> ~ no_resample)
        /\ res_is_shifted r = is_shifted self'
        /\ res_is_resampled r = is_resampled self').
Proof.
  intro no_resample.
  assert (Hiff := no_resampling_needed_iff self). fold no_resample in Hiff.
  destruct (correct_shifts self fs) as [[self' fs'] outcome] eqn:Hrun.
  unfold correct_shifts in Hrun |- *.
  destruct (no_resampling_needed self) eqn:Hguard.
  - assert (Hyes : no_resample) by (apply Hiff; reflexivity).
    destruct (no_resampling_sets_flags _ _ _ _ _ Hrun) as [Hs Hr].
    split; [|split].
    + intros _. split; [symmetry; exact Hrun|]. split; assumption.
    + intro Hno. contradiction.
    + intros _ r ->. apply no_resampling_flags in Hrun.
      destruct Hrun as (-> & _ & _).
      cbn [deshift_results res_is_shifted res_is_resampled].
      rewrite Hs, Hr. clearbody no_resample.
      intuition (congruence || discriminate).
  - assert (Hno : ~ no_resample)
      by (intro H; apply Hiff in H; discriminate).
    split; [|split].
    + intro Hyes. contradiction.
    + intros _. split; [symmetry; exact Hrun|].
      intros e ->. eapply resampling_raise_keeps_flags; eassumption.
    + intros Hwarp r ->.
      assert (Hflags : r = deshift_results self'
                       /\ is_shifted self' = true
                       /\ is_resampled self' = true).
      { unfold correct_shifts_resampling in Hrun.
        destruct Hwarp as [Hw|Hw]; rewrite Hw in Hrun; cbn in Hrun.
        - eapply GDAL_cmd_flags; eassumption.
        - eapply GDAL_lib_flags; eassumption. }
      destruct Hflags as (-> & Hs & Hr).
      cbn [deshift_results res_is_shifted res_is_resampled].
      rewrite Hs, Hr. clearbody no_resample.
      intuition (congruence || discriminate).
Qed.




(** Without clipping to the footprint the extent depends on the image
    and the grid only. *)
Lemma _get_out_extent_without_footprint (s : DESHIFTER) :
  cliptoextent s = false ->
  exists e,
    fst (_get_out_extent s) = set_clipextent (Some e) s
    /\ forall s' : DESHIFTER,
         cliptoextent s' = false ->
         im2shift s' = im2shift s -> out_grid s' = out_grid s ->
         _get_out_extent s'
         = (set_clipextent (Some e) s', snd (_get_out_extent s)).
Proof.
  intro Hs. unfold _get_out_extent. rewrite Hs. cbn [andb].
  destruct (box_boundsMap (im2shift s)) as [[[xmin xmax] ymin] ymax] eqn:Hb.
  eexists. split; [reflexivity|].
  intros s' Hs' Him Hgrid. rewrite Hs'. cbn [andb].
  rewrite Him, Hb. cbn [out_grid set_clipextent snd].
  rewrite Hgrid. reflexivity.
Qed.

(** C8, as the code has it: after a returning run of the branch
    "NO RESAMPLING NEEDED" with [cliptoextent] false, a second call on the
    same object takes the same branch, leaves the object as it is and
    returns the same record. *)
Theorem second_run_without_clipping_returns_same_record
    (self self1 : DESHIFTER) (fs fs1 : FS) (r1 : Results) :
  cliptoextent self = false ->
  no_resampling_needed self = true ->
  correct_shifts self fs = (self1, fs1, inr r1) ->
  no_resampling_needed self1 = true
  /\ exists fs2, correct_shifts self1 fs1 = (self1, fs2, inr r1).
Proof.
  intros Hclip Hguard.
  unfold correct_shifts. rewrite Hguard.
  unfold correct_shifts_no_resampling.
  destruct (_get_out_extent_without_footprint
              (set_is_resampled false (set_is_shifted true self)) Hclip)
    as (e & He & Hagain).
  destruct (_get_out_extent _) as [s0 ext] eqn:Hext0.
  cbn [fst snd] in He, Hagain. subst s0.
  destruct ext as [exn|[[[xmin ymin] xmax] ymax]]; [discriminate|].
  clear Hext0. destruct self. unfold no_resampling_needed in Hguard.
  attributes in Hclip. attributes in Hguard. subst.
  attributes. intro H. injection H as <- <- <-.
  unfold no_resampling_needed. attributes. rewrite Hguard.
  split; [reflexivity|].
  rewrite Hagain by reflexivity.
  attributes. eexists. reflexivity.
Qed.

(** C9, as the code has it: with a non-empty GCP list the in-process
    strategy hands the geotransform of the image to [warp_ndarray] with
    its origin untouched, together with the GCP list; with no GCP list
    the origin is overwritten with that of [updated_gt] and [None] is
    handed on.  The run of [correct_shifts] returns what [warp_ndarray]
    makes of these arguments. *)
Theorem GDAL_lib_forwards_gcps_or_shifts_origin (self self' : DESHIFTER)
    (args : WarpArgs Arr GCP) :
  GDAL_lib_warp_call self = (self', inr args) ->
  (forall g l, GCPList self = Some (g :: l) ->
     wa_in_gt args = shift_gt self
     /\ shift_gt self' = shift_gt self
     /\ wa_gcpList args = Some (g :: l))
  /\ (GCPList self = None ->
      wa_in_gt args
      = set_origin (shift_gt self)
          (gt0 (updated_gt self)) (gt3 (updated_gt self))
      /\ shift_gt self' = wa_in_gt args
      /\ wa_gcpList args = None)
  /\ (forall fs, no_resampling_needed self = false ->
      warpAlg self = "GDAL_lib" ->
      let '(_, _, outcome) := correct_shifts self fs in
      exists r, outcome = inr r
                /\ res_arr_shifted r = Some (fst (fst (warp_ndarray args)))
                /\ res_updated_projection r = snd (warp_ndarray args)).
Proof.
  intro Hcall. split; [|split].
  - intros g l Hg. revert Hcall. unfold GDAL_lib_warp_call.
    rewrite Hg. cbn [truthy_list negb].
    destruct (dict_get _ _) as [rsp|]; [|discriminate].
    destruct (_get_out_extent_assigns self) as [e He].
    destruct (_get_out_extent self) as [s1 ext]. cbn [fst] in He. subst s1.
    destruct ext as [exn|bounds]; [discriminate|].
    cbn [bind ret]. intro H. injection H as <- <-.
    cbn. rewrite Hg. repeat split.
  - intro Hg. revert Hcall. unfold GDAL_lib_warp_call.
    rewrite Hg. cbn [truthy_list negb].
    destruct (dict_get _ _) as [rsp|]; [|discriminate].
    destruct (_get_out_extent_assigns
                (set_shift_gt
                   (set_origin (shift_gt self) (gt0 (updated_gt self))
                      (gt3 (updated_gt self))) self)) as [e He].
    destruct (_get_out_extent _) as [s1 ext]. cbn [fst] in He. subst s1.
    destruct ext as [exn|bounds]; [discriminate|].
    cbn [bind ret]. intro H. injection H as <- <-.
    cbn. rewrite Hg. repeat split.
  - intros fs Hguard Hwarp.
    unfold correct_shifts, correct_shifts_resampling.
    rewrite Hguard, Hwarp. cbn [String.eqb Ascii.eqb Bool.eqb].
    unfold correct_shifts_GDAL_lib. rewrite Hcall.
    destruct (warp_ndarray args) as [[out_arr out_gt] out_prj].
    eexists. repeat split.
Qed.

End Paths.

(** ** Construction: [__init__] and [_get_out_grid] *)

Section Construction.
Context {Arr MapInfo GCP GeoArray : Type}.
Context {C : Collaborators Arr MapInfo GCP GeoArray}.

Lemma str_in_In (s : string) (l : list string) :
  str_in s l = true <-> In s l.
Proof.
  unfold str_in. rewrite existsb_exists. split.
  - intros (x & Hx & E). apply String.eqb_eq in E. subst x. exact Hx.
  - intro H. exists s. split; [exact H|apply String.eqb_refl].
Qed.

(** The object is built when the grid resolves and the two assertions
    hold, and the constructor raises [AssertionError] when one of them
    fails. *)
Lemma __init___outcome (im2shift : GeoArray) (coreg_results : CoregResults)
    (kwargs : Kwargs) (grid : Grid) :
  _get_out_grid im2shift (cr_reference_geotransform coreg_results)
    (cr_reference_grid coreg_results)
    (kwargs_get (kw_align_grids kwargs) false) kwargs = inr grid ->
  let names_ok :=
    str_in (kwargs_get (kw_resamp_alg kwargs) "cubic")
      (dict_keys _dict_rspAlg_rsp_Int)
    && str_in (kwargs_get (kw_warp_alg kwargs) "GDAL_lib")
         ["GDAL_cmd"; "GDAL_lib"] in
  (names_ok = true ->
   exists self, __init__ im2shift coreg_results kwargs = inr self
                /\ out_grid self = grid
                /\ rspAlg self = kwargs_get (kw_resamp_alg kwargs) "cubic"
                /\ warpAlg self = kwargs_get (kw_warp_alg kwargs) "GDAL_lib")
  /\ (names_ok = false ->
      exists msg,
        __init__ im2shift coreg_results kwargs = inl (AssertionError msg)).
Proof.
  intros Hgrid names_ok. subst names_ok. unfold __init__. rewrite Hgrid.
  cbn [bind].
  destruct (str_in (kwargs_get (kw_resamp_alg kwargs) "cubic") _);
    cbn [negb andb].
  - destruct (str_in (kwargs_get (kw_warp_alg kwargs) "GDAL_lib") _);
      cbn [negb].
    + split; [|discriminate]. intros _. eexists. repeat split.
    + split; [discriminate|]. intros _. eexists. reflexivity.
  - split; [discriminate|]. intros _. eexists. reflexivity.
Qed.

(** C6, as the code has it: when the grid options resolve, the constructor
    builds the object for each of the resampling names nearest, bilinear,
    cubic, cubic_spline, lanczos, average, mode, max, min, med and q1 with
    a warp strategy GDAL_cmd or GDAL_lib, and it raises [AssertionError]
    when the resampling name is none of these nor q2 nor q3, or when the
    warp strategy is neither GDAL_cmd nor GDAL_lib. *)
Theorem __init___checks_algorithm_names (im2shift : GeoArray)
    (coreg_results : CoregResults) (kwargs : Kwargs) (grid : Grid) :
  _get_out_grid im2shift (cr_reference_geotransform coreg_results)
    (cr_reference_grid coreg_results)
    (kwargs_get (kw_align_grids kwargs) false) kwargs = inr grid ->
  let resamp_alg := kwargs_get (kw_resamp_alg kwargs) "cubic" in
  let warp_alg := kwargs_get (kw_warp_alg kwargs) "GDAL_lib" in
  (In resamp_alg
      ["nearest"; "bilinear"; "cubic"; "cubic_spline"; "lanczos"; "average";
       "mode"; "max"; "min"; "med"; "q1"] ->
   In warp_alg ["GDAL_cmd"; "GDAL_lib"] ->
   exists self, __init__ im2shift coreg_results kwargs = inr self
                /\ rspAlg self = resamp_alg /\ warpAlg self = warp_alg)
  /\ (~ In resamp_alg
          ["nearest"; "bilinear"; "cubic"; "cubic_spline"; "lanczos";
           "average"; "mode"; "max"; "min"; "med"; "q1"; "q2"; "q3"]
      \/ ~ In warp_alg ["GDAL_cmd"; "GDAL_lib"] ->
      exists msg,
        __init__ im2shift coreg_results kwargs = inl (AssertionError msg)).
Proof.
  intros Hgrid resamp_alg warp_alg.
  destruct (__init___outcome im2shift coreg_results kwargs grid Hgrid)
    as [Hok Hbad].
  fold resamp_alg warp_alg in Hok, Hbad.
  split.
  - intros Hr Hw.
    destruct Hok as (self & Hself & _ & Hrsp & Hwarp).
    + apply andb_true_iff. split; apply str_in_In.
      * cbn in Hr |- *. intuition.
      * exact Hw.
    + exists self. auto.
  - intros Hnot. apply Hbad. apply andb_false_iff.
    destruct Hnot as [Hr|Hw]; [left|right];
      apply not_true_iff_false; intro H; apply str_in_In in H.
    + apply Hr. cbn in H |- *. intuition.
    + exact (Hw H).
Qed.

(** C10: an object built with [v=True] has [q] false, whatever was given
    for [q]. *)
Theorem verbose_forces_quiet_off (im2shift : GeoArray)
    (coreg_results : CoregResults) (kwargs : Kwargs) (self : DESHIFTER) :
  kw_v kwargs = Some true ->
  __init__ im2shift coreg_results kwargs = inr self ->
  v self = true /\ q self = false.
Proof.
  intros Hv. unfold __init__. rewrite Hv.
  destruct (_get_out_grid _ _ _ _ _) as [exn|grid]; [discriminate|].
  cbn [bind kwargs_get negb].
  destruct (negb (str_in _ _)); [discriminate|].
  destruct (negb (str_in _ _)); [discriminate|].
  intro H. injection H as <-. split; reflexivity.
Qed.

(** An object that the constructor returns has one of the two warp
    strategies. *)
Lemma __init___warpAlg (im2shift : GeoArray) (coreg_results : CoregResults)
    (kwargs : Kwargs) (self : DESHIFTER) :
  __init__ im2shift coreg_results kwargs = inr self ->
  warpAlg self = "GDAL_cmd" \/ warpAlg self = "GDAL_lib".
Proof.
  unfold __init__.
  destruct (_get_out_grid _ _ _ _ _) as [exn|grid]; [discriminate|].
  cbn [bind].
  destruct (negb (str_in _ _)); [discriminate|].
  destruct (str_in (kwargs_get (kw_warp_alg kwargs) "GDAL_lib") _) eqn:E;
    [|discriminate].
  cbn [negb]. intro H. injection H as <-. cbn [warpAlg].
  apply str_in_In in E. cbn in E. intuition.
Qed.

(** A Python [int] given as [out_gsd] makes [_get_out_grid] raise
    [TypeError] as soon as the grid argument passes its assertion, and a
    [float] fails the assertion. *)
Lemma _get_out_grid_scalar_out_gsd (im2shift : GeoArray)
    (ref_gt : Geotransform) (ref_grid : Grid) (align_grids : bool)
    (kwargs : Kwargs) :
  kw_target_xyGrid kwargs = None ->
  (forall n, kw_out_gsd kwargs = Some (GsdInt n) ->
     _get_out_grid im2shift ref_gt ref_grid align_grids kwargs
     = inl (TypeError "object of type 'int' has no len()"))
  /\ (forall x, kw_out_gsd kwargs = Some (GsdFloat x) ->
        _get_out_grid im2shift ref_gt ref_grid align_grids kwargs
        = inl (AssertionError EmptyString)).
Proof.
  intro Hgrid. split; intros x Hgsd; unfold _get_out_grid;
    rewrite Hgrid, Hgsd; cbv [bind ret raise]; reflexivity.
Qed.

End Construction.

(** ** The methods on the sample collaborators *)

(** C5: [out_gsd=20], an [int], with [align_grids=True] on an image of
    10-unit pixels: the assertion of [_get_out_grid] evaluates
    [len(out_gsd)] and the constructor raises [TypeError].  The pair
    [(20, 20)] builds the object, with the grid anchored at the origin
    (0, 100) of the reference and 20-unit pixels. *)
Theorem scalar_out_gsd_raises_TypeError :
  ga_xgsd image_odd = 10 /\ ga_ygsd image_odd = 10
  /\ __init__ image_odd (coreg None) (kw_out_gsd_aligned (GsdInt 20))
     = inl (TypeError "object of type 'int' has no len()")
  /\ exists self : Engine,
       __init__ image_odd (coreg None) (kw_out_gsd_aligned (GsdSeq [20; 20]))
       = inr self
       /\ out_grid self = ((0, 20), (100, 80))
       /\ out_gsd self = (20, 20).
Proof.
  conjuncts; try run.
  eexists. split; [run|]. split; run.
Qed.

(** C6 fails as stated: the names median and q3 are rejected. *)
Lemma median_and_q3_are_rejected :
  __init__ image (coreg None) (kw_algs "median" "GDAL_lib")
  = inl (AssertionError "'median' is not a supported resampling algorithm.")
  /\ __init__ image (coreg None) (kw_algs "q3" "GDAL_lib")
     = inl (AssertionError "'q3' is not a supported resampling algorithm.").
Proof.
  split; run.
Qed.

(** The name med with GDAL_cmd is accepted, and the warp strategy
    gdalwarp is rejected. *)
Lemma __init___checks_algorithm_names_witness :
  (exists self : Engine,
     __init__ image (coreg None) (kw_algs "med" "GDAL_cmd") = inr self
     /\ rspAlg self = "med" /\ warpAlg self = "GDAL_cmd")
  /\ (exists msg,
        __init__ (C := ok) image (coreg None) (kw_algs "med" "gdalwarp")
        = inl (AssertionError msg)).
Proof.
  split.
  - apply (proj1 (__init___checks_algorithm_names (C := ok) image
                    (coreg None) (kw_algs "med" "GDAL_cmd")
                    ((0, 10), (100, 90)) eq_refl)).
    + cbn. tauto.
    + cbn. tauto.
  - apply (proj2 (__init___checks_algorithm_names (C := ok) image
                    (coreg None) (kw_algs "med" "gdalwarp")
                    ((0, 10), (100, 90)) eq_refl)).
    right. cbn. intros [H|[H|[]]]; discriminate.
Defined.

(** [v=True, q=True] builds an object with [q] false. *)
Lemma verbose_forces_quiet_off_witness :
  let self : Engine :=
    mkDESHIFTER image "EPSG:32633" (mkGT 0 10 0 100 0 (-10)) None
      (mkGT 2 10 0 97 0 (-10), "EPSG:32633")
      (mkGT 0 10 0 100 0 (-10), "EPSG:32633")
      (mkGT 2 10 0 97 0 (-10)) (mkGT 0 10 0 100 0 (-10))
      ((0, 10), (100, 90)) "EPSG:32633" "EPSG:32633" None "ENVI" None None
      false "VRT" "cubic" "GDAL_lib" true None "/dev/shm/" None true false
      ((0, 10), (100, 90)) (10, 10) false false [] None None in
  __init__ image (coreg None) (kw_vq true true) = inr self
  /\ v self = true /\ q self = false.
Proof.
  intro self.
  assert (H : __init__ image (coreg None) (kw_vq true true) = inr self)
    by (vm_compute; reflexivity).
  exact (conj H (verbose_forces_quiet_off image (coreg None)
                   (kw_vq true true) self eq_refl H)).
Defined.

(** The objects of the examples below are what the constructor builds. *)
Lemma sample_engines_are_constructed :
  __init__ image (coreg None) kw_default
  = inr (engine image None
           "GDAL_lib" false true None ((0, 10), (100, 90)))
  /\ __init__ image (coreg None)
       (kw_clip (0, 0, 100, 100) [(0, 10); (100, 90)])
     = inr (engine image None
              "GDAL_lib" false true (Some (0, 0, 100, 100))
              ((0, 10), (100, 90)))
  /\ __init__ image (coreg None) kw_noclip
     = inr (engine image None
              "GDAL_lib" false false None ((0, 10), (100, 90)))
  /\ __init__ (C := collaborators 1 true) image (coreg None)
       (kw_warp_aligned "GDAL_cmd")
     = inr (engine image None
              "GDAL_cmd" true true None ((0, 10), (100, 90)))
  /\ __init__ (C := collaborators 2 true) image (coreg None)
       (kw_warp_aligned "GDAL_cmd")
     = inr (engine image None
              "GDAL_cmd" true true None ((0, 10), (100, 90)))
  /\ __init__ image (coreg (Some [])) (kw_warp_aligned "GDAL_lib")
     = inr (engine image (Some [])
              "GDAL_lib" true true None ((0, 10), (100, 90)))
  /\ __init__ image (coreg (Some [(1, 1, 12, 88)]))
       (kw_warp_aligned "GDAL_lib")
     = inr (engine image
              (Some [(1, 1, 12, 88)])
              "GDAL_lib" true true None ((0, 10), (100, 90))).
Proof.
  conjuncts; run.
Qed.

(** Four runs on an image that lies on the reference grid: with the
    default options through the first branch; with [align_grids] through
    the other branch, once with each warp strategy; and with a warp
    command that exits with code 1, where the raising run leaves the
    flags as they were. *)
Lemma correct_shifts_path_and_flags_witness :
  (let self : Engine :=
     engine image None "GDAL_lib" false true None ((0, 10), (100, 90)) in
   exists self' fs' r,
     correct_shifts self [] = (self', fs', inr r)
     /\ correct_shifts self [] = correct_shifts_no_resampling self []
     /\ is_shifted self' = true /\ is_resampled self' = false
     /\ res_is_shifted r = true /\ res_is_resampled r = false)
  /\ (let self : Engine :=
        engine image None "GDAL_lib" true true None ((0, 10), (100, 90)) in
      exists self' fs' r,
        correct_shifts self [] = (self', fs', inr r)
        /\ correct_shifts self [] = correct_shifts_resampling self []
        /\ is_shifted self' = true /\ is_resampled self' = true
        /\ res_is_shifted r = true /\ res_is_resampled r = true)
  /\ (let self : Engine :=
        engine image None "GDAL_cmd" true true None ((0, 10), (100, 90)) in
      exists self' fs' r,
        correct_shifts self [] = (self', fs', inr r)
        /\ correct_shifts self [] = correct_shifts_resampling self []
        /\ is_shifted self' = true /\ is_resampled self' = true
        /\ res_is_shifted r = true /\ res_is_resampled r = true)
  /\ (let self : Engine :=
        engine image None "GDAL_cmd" true true None ((0, 10), (100, 90)) in
      exists self' fs' e,
        correct_shifts (C := collaborators 1 true) self []
        = (self', fs', inl e)
        /\ correct_shifts (C := collaborators 1 true) self []
           = correct_shifts_resampling (C := collaborators 1 true) self []
        /\ is_shifted self' = false /\ is_resampled self' = false).
Proof.
  split; [|split; [|split]]; intro self.
  - assert (H := correct_shifts_path_and_flags (C := ok) self []).
    cbv zeta in H. revert H.
    destruct (correct_shifts self []) as [[self' fs'] [exn|r]] eqn:E;
      intro H.
    + apply (f_equal snd) in E. vm_compute in E. discriminate E.
    + assert (Hyes : prj_equal (ref_prj self) (shift_prj self) = true
                     /\ is_coord_grid_equal (shift_gt self)
                          (fst (out_grid self)) (snd (out_grid self)) = true
                     /\ align_grids self = false)
        by (conjuncts; reflexivity).
      destruct H as (Hpath & _ & Hret).
      destruct (Hpath Hyes) as (Hp & Hs & Hr).
      destruct (Hret (or_intror eq_refl) r eq_refl)
        as (_ & _ & _ & Hrs & Hrr).
      exists self', fs', r. split; [reflexivity|]. split; [exact Hp|].
      split; [exact Hs|]. split; [exact Hr|].
      split; [rewrite Hrs; exact Hs|rewrite Hrr; exact Hr].
  - assert (H := correct_shifts_path_and_flags (C := ok) self []).
    cbv zeta in H. revert H.
    destruct (correct_shifts self []) as [[self' fs'] [exn|r]] eqn:E;
      intro H.
    + apply (f_equal snd) in E. vm_compute in E. discriminate E.
    + assert (Hno : ~ (prj_equal (ref_prj self) (shift_prj self) = true
                       /\ is_coord_grid_equal (shift_gt self)
                            (fst (out_grid self)) (snd (out_grid self))
                          = true
                       /\ align_grids self = false))
        by (intros (_ & _ & Ha); discriminate Ha).
      destruct H as (_ & Hpath & Hret).
      destruct (Hpath Hno) as (Hp & _).
      destruct (Hret (or_intror eq_refl) r eq_refl)
        as (Hs & _ & Hr & Hrs & Hrr).
      apply Hr in Hno.
      exists self', fs', r. split; [reflexivity|]. split; [exact Hp|].
      split; [exact Hs|]. split; [exact Hno|].
      split; [rewrite Hrs; exact Hs|rewrite Hrr; exact Hno].
  - assert (H := correct_shifts_path_and_flags (C := ok) self []).
    cbv zeta in H. revert H.
    destruct (correct_shifts self []) as [[self' fs'] [exn|r]] eqn:E;
      intro H.
    + apply (f_equal snd) in E. vm_compute in E. discriminate E.
    + assert (Hno : ~ (prj_equal (ref_prj self) (shift_prj self) = true
                       /\ is_coord_grid_equal (shift_gt self)
                            (fst (out_grid self)) (snd (out_grid self))
                          = true
                       /\ align_grids self = false))
        by (intros (_ & _ & Ha); discriminate Ha).
      destruct H as (_ & Hpath & Hret).
      destruct (Hpath Hno) as (Hp & _).
      destruct (Hret (or_introl eq_refl) r eq_refl)
        as (Hs & _ & Hr & Hrs & Hrr).
      apply Hr in Hno.
      exists self', fs', r. split; [reflexivity|]. split; [exact Hp|].
      split; [exact Hs|]. split; [exact Hno|].
      split; [rewrite Hrs; exact Hs|rewrite Hrr; exact Hno].
  - assert (H := correct_shifts_path_and_flags
                   (C := collaborators 1 true) self []).
    cbv zeta in H. revert H.
    destruct (correct_shifts (C := collaborators 1 true) self [])
      as [[self' fs'] [e|r]] eqn:E; intro H.
    + assert (Hno : ~ (prj_equal (ref_prj self) (shift_prj self) = true
                       /\ is_coord_grid_equal (shift_gt self)
                            (fst (out_grid self)) (snd (out_grid self))
                          = true
                       /\ align_grids self = false))
        by (intros (_ & _ & Ha); discriminate Ha).
      destruct H as (_ & Hpath & _).
      destruct (Hpath Hno) as (Hp & Hraise).
      destruct (Hraise e eq_refl) as (Hs & Hr).
      exists self', fs', e. split; [reflexivity|]. split; [exact Hp|].
      split; [exact Hs|exact Hr].
    + apply (f_equal snd) in E. vm_compute in E. discriminate E.
Defined.



(** C8 fails as stated: with [cliptoextent=True] the first run replaces
    [updated_gt], whose origin was (2, 97), by the geotransform of the
    clipped array, whose origin is (0, 100); the second run on the same
    object, again through the first branch and with the same extent,
    places the image by that geotransform and returns another array. *)
Lemma second_run_with_clipping_differs :
  let self : Engine :=
    engine image None "GDAL_lib" false true (Some (0, 0, 100, 100))
      ((0, 10), (100, 90)) in
  let first := correct_shifts self [] in
  let self1 := fst (fst first) in
  let second := correct_shifts self1 (snd (fst first)) in
  let self2 := fst (fst second) in
  let returned_array (outcome : Raises Results) :=
    match outcome with
    | inr r => res_arr_shifted r
    | inl _ => None
    end in
  no_resampling_needed self = true /\ no_resampling_needed self1 = true
  /\ clipextent self1 = Some (0, 0, 100, 100)
  /\ clipextent self2 = Some (0, 0, 100, 100)
  /\ gt0 (updated_gt self) = 2 /\ gt0 (updated_gt self1) = 0
  /\ returned_array (snd first) = Some (-2, 3, 98, 103)
  /\ returned_array (snd second) = Some (0, 0, 100, 100)
  /\ snd first <> snd second.
Proof.
  intros self first self1 second self2 returned_array.
  assert (H1 : returned_array (snd first) = Some (-2, 3, 98, 103)) by run.
  assert (H2 : returned_array (snd second) = Some (0, 0, 100, 100)) by run.
  conjuncts; try assumption; try run.
  intro H. rewrite H, H2 in H1. discriminate H1.
Qed.

(** [cliptoextent=False] on an image that lies on the reference grid. *)
Lemma second_run_without_clipping_returns_same_record_witness :
  let self : Engine :=
    engine image None "GDAL_lib" false false None ((0, 10), (100, 90)) in
  exists self1 fs1 r1 fs2,
    correct_shifts self [] = (self1, fs1, inr r1)
    /\ correct_shifts self1 fs1 = (self1, fs2, inr r1).
Proof.
  intro self.
  destruct (correct_shifts self []) as [[self1 fs1] [exn|r1]] eqn:E.
  - apply (f_equal snd) in E. vm_compute in E. discriminate E.
  - destruct (second_run_without_clipping_returns_same_record (C := ok)
                self self1 [] fs1 r1 eq_refl eq_refl E) as (_ & fs2 & H).
    exists self1, fs1, r1, fs2. split; [reflexivity|exact H].
Defined.

(** C9 fails as stated: an empty GCP list is present, and the origin of
    the geotransform, (0, 100), is overwritten with the updated origin
    (2, 97) before the call of [warp_ndarray]. *)
Lemma empty_gcp_list_shifts_origin :
  let self : Engine :=
    engine image (Some []) "GDAL_lib" true true None ((0, 10), (100, 90)) in
  GCPList self = Some []
  /\ shift_gt self = mkGT 0 10 0 100 0 (-10)
  /\ exists self' args,
       GDAL_lib_warp_call self = (self', inr args)
       /\ wa_in_gt args = mkGT 2 10 0 97 0 (-10)
       /\ shift_gt self' = mkGT 2 10 0 97 0 (-10)
       /\ wa_gcpList args = Some [].
Proof.
  intro self. split; [run|]. split; [run|].
  do 2 eexists. split; [run|]. conjuncts; run.
Qed.

(** One ground control point: the origin (0, 100) stays. *)
Lemma GDAL_lib_forwards_gcps_or_shifts_origin_witness :
  let self : Engine :=
    engine image (Some [(1, 1, 12, 88)]) "GDAL_lib" true true None
      ((0, 10), (100, 90)) in
  exists self' args,
    GDAL_lib_warp_call self = (self', inr args)
    /\ wa_in_gt args = mkGT 0 10 0 100 0 (-10)
    /\ shift_gt self' = mkGT 0 10 0 100 0 (-10)
    /\ wa_gcpList args = Some [(1, 1, 12, 88)].
Proof.
  intro self.
  destruct (GDAL_lib_warp_call self) as [self' [exn|args]] eqn:E.
  - apply (f_equal snd) in E. vm_compute in E. discriminate E.
  - exists self', args. split; [reflexivity|].
    exact (proj1 (GDAL_lib_forwards_gcps_or_shifts_origin (C := ok)
                    self self' args E)
             (1, 1, 12, 88) [] eq_refl).
Defined.

(** * Further properties *)

(** ** Alignable pixel sizes: [_grids_alignable] *)

Lemma Qeq_bool_comp (a a' b b' : Q) :
  a == a' -> b == b' -> Qeq_bool a b = Qeq_bool a' b'.
Proof.
  intros Ha Hb.
  destruct (Qeq_bool a b) eqn:E, (Qeq_bool a' b') eqn:E'; try reflexivity.
  - apply Qeq_bool_iff in E. apply Qeq_bool_neq in E'.
    exfalso. apply E'. rewrite <- Ha, <- Hb. exact E.
  - apply Qeq_bool_iff in E'. apply Qeq_bool_neq in E.
    exfalso. apply E. rewrite Ha, Hb. exact E'.
Qed.

Lemma Qmin_sym (a b : Q) : Qmin a b == Qmin b a.
Proof.
  destruct (Qmin_Qmax_cases a b) as [(H & -> & _)|(H & -> & _)];
    destruct (Qmin_Qmax_cases b a) as [(H' & -> & _)|(H' & -> & _)]; lra.
Qed.

Lemma Qmax_sym (a b : Q) : Qmax a b == Qmax b a.
Proof.
  destruct (Qmin_Qmax_cases a b) as [(H & _ & ->)|(H & _ & ->)];
    destruct (Qmin_Qmax_cases b a) as [(H' & _ & ->)|(H' & _ & ->)]; lra.
Qed.

Lemma py_mod_comp (a a' b b' : Q) :
  a == a' -> b == b' -> py_mod a b == py_mod a' b'.
Proof.
  intros Ha Hb. unfold py_mod.
  assert (Hf : Qfloor (a / b) = Qfloor (a' / b'))
    by (apply Qfloor_comp; rewrite Ha, Hb; reflexivity).
  rewrite Hf, Ha, Hb. reflexivity.
Qed.

(** The remainder is zero exactly for the integer multiples. *)
Lemma py_mod_zero_iff (a b : Q) :
  ~ b == 0 ->
  py_mod a b == 0 <-> exists k : Z, a == inject_Z k * b.
Proof.
  intro Hb. unfold py_mod. split.
  - intro H. exists (Qfloor (a / b)). lra.
  - intros [k Hk].
    assert (Hq : a / b == inject_Z k)
      by (rewrite Hk; apply Qdiv_mult_l; exact Hb).
    assert (Hf : Qfloor (a / b) = k)
      by (rewrite (Qfloor_comp _ _ Hq); apply Qfloor_Z).
    rewrite Hf, Hk. ring.
Qed.

Lemma is_alignable_sym (gsd1 gsd2 : Q) :
  is_alignable gsd1 gsd2 = is_alignable gsd2 gsd1.
Proof.
  unfold is_alignable.
  rewrite (Qeq_bool_comp (Qmin gsd1 gsd2) (Qmin gsd2 gsd1) 0 0
             (Qmin_sym _ _) (Qeq_refl 0)).
  rewrite (Qeq_bool_comp (py_mod (Qmax gsd1 gsd2) (Qmin gsd1 gsd2))
             (py_mod (Qmax gsd2 gsd1) (Qmin gsd2 gsd1)) 0 0
             (py_mod_comp _ _ _ _ (Qmax_sym _ _) (Qmin_sym _ _))
             (Qeq_refl 0)).
  reflexivity.
Qed.

Lemma is_alignable_raises_iff (gsd1 gsd2 : Q) :
  is_alignable gsd1 gsd2 = inl ZeroDivisionError <-> Qmin gsd1 gsd2 == 0.
Proof.
  unfold is_alignable. destruct (Qeq_bool (Qmin gsd1 gsd2) 0) eqn:E.
  - apply Qeq_bool_iff in E. split; [intros _; exact E|reflexivity].
  - apply Qeq_bool_neq in E. split; [discriminate|contradiction].
Qed.

Lemma is_alignable_true_iff (gsd1 gsd2 : Q) :
  is_alignable gsd1 gsd2 = inr true
  <-> ~ Qmin gsd1 gsd2 == 0
      /\ exists k : Z, Qmax gsd1 gsd2 == inject_Z k * Qmin gsd1 gsd2.
Proof.
  unfold is_alignable. destruct (Qeq_bool (Qmin gsd1 gsd2) 0) eqn:E.
  - apply Qeq_bool_iff in E. split; [discriminate|]. intros [H _].
    contradiction.
  - apply Qeq_bool_neq in E. unfold ret.
    rewrite <- (py_mod_zero_iff _ _ E).
    split.
    + intro H. split; [exact E|]. apply Qeq_bool_iff. congruence.
    + intros [_ H]. apply Qeq_bool_iff in H. rewrite H. reflexivity.
Qed.

Lemma is_alignable_outcomes (gsd1 gsd2 : Q) :
  is_alignable gsd1 gsd2 = inl ZeroDivisionError
  \/ is_alignable gsd1 gsd2 = inr true
  \/ is_alignable gsd1 gsd2 = inr false.
Proof.
  unfold is_alignable. destruct (Qeq_bool (Qmin gsd1 gsd2) 0); [auto|].
  destruct (Qeq_bool _ 0); auto.
Qed.

(** X1: the pixel sizes are reported alignable exactly when, on each axis,
    the smaller size is not zero and the larger one is an integer multiple
    of it. *)
Theorem _grids_alignable_true_iff (in_xgsd in_ygsd out_xgsd out_ygsd : Q) :
  _grids_alignable in_xgsd in_ygsd out_xgsd out_ygsd = inr true
  <-> (~ Qmin in_xgsd out_xgsd == 0
       /\ exists k : Z,
            Qmax in_xgsd out_xgsd == inject_Z k * Qmin in_xgsd out_xgsd)
      /\ (~ Qmin in_ygsd out_ygsd == 0
          /\ exists k : Z,
               Qmax in_ygsd out_ygsd == inject_Z k * Qmin in_ygsd out_ygsd).
Proof.
  rewrite <- !is_alignable_true_iff. unfold _grids_alignable.
  destruct (is_alignable_outcomes in_xgsd out_xgsd) as [Hx|[Hx|Hx]];
    rewrite Hx; cbn [bind negb].
  - split; [discriminate|]. intros [H _]. discriminate.
  - destruct (is_alignable_outcomes in_ygsd out_ygsd) as [Hy|[Hy|Hy]];
      rewrite Hy; cbn [bind negb].
    + split; [discriminate|]. intros [_ H]. discriminate.
    + split; auto.
    + split; [discriminate|]. intros [_ H]. discriminate.
  - split; [discriminate|]. intros [H _]. discriminate.
Qed.

(** X2: the check does not depend on which image is the input and which
    the output: swapping the two pairs of pixel sizes gives the same
    outcome, raised exception included. *)
Theorem _grids_alignable_sym (in_xgsd in_ygsd out_xgsd out_ygsd : Q) :
  _grids_alignable in_xgsd in_ygsd out_xgsd out_ygsd
  = _grids_alignable out_xgsd out_ygsd in_xgsd in_ygsd.
Proof.
  unfold _grids_alignable.
  rewrite (is_alignable_sym in_xgsd out_xgsd).
  rewrite (is_alignable_sym in_ygsd out_ygsd).
  reflexivity.
Qed.

(** X3: the check raises [ZeroDivisionError] exactly when the smaller x
    size is zero, or the x sizes are alignable and the smaller y size is
    zero.  When the x sizes are not alignable the y sizes are not looked
    at, so a zero y size goes unnoticed. *)
Theorem _grids_alignable_raises_iff (in_xgsd in_ygsd out_xgsd out_ygsd : Q) :
  (_grids_alignable in_xgsd in_ygsd out_xgsd out_ygsd
   = inl ZeroDivisionError
   <-> Qmin in_xgsd out_xgsd == 0
       \/ (is_alignable in_xgsd out_xgsd = inr true
           /\ Qmin in_ygsd out_ygsd == 0))
  /\ (is_alignable in_xgsd out_xgsd = inr false ->
      _grids_alignable in_xgsd in_ygsd out_xgsd out_ygsd = inr false).
Proof.
  rewrite <- !is_alignable_raises_iff. unfold _grids_alignable.
  destruct (is_alignable_outcomes in_xgsd out_xgsd) as [Hx|[Hx|Hx]];
    rewrite Hx; cbn [bind negb].
  - split; [|discriminate]. split; auto.
  - split; [|discriminate].
    destruct (is_alignable_outcomes in_ygsd out_ygsd) as [Hy|[Hy|Hy]];
      rewrite Hy; cbn [bind negb].
    + split; auto.
    + split; [discriminate|]. intros [H|[_ H]]; discriminate.
    + split; [discriminate|]. intros [H|[_ H]]; discriminate.
  - split; [|reflexivity]. split; [discriminate|].
    intros [H|[H _]]; discriminate.
Qed.

(** X4: an image is alignable with a grid of its own pixel sizes, provided
    neither size is zero. *)
Theorem _grids_alignable_same_sizes (xgsd ygsd : Q) :
  ~ xgsd == 0 -> ~ ygsd == 0 ->
  _grids_alignable xgsd ygsd xgsd ygsd = inr true.
Proof.
  intros Hx Hy.
  assert (Hsame : forall a, ~ a == 0 -> is_alignable a a = inr true).
  { intros a Ha. apply is_alignable_true_iff.
    assert (Hmin : Qmin a a = a)
      by (unfold Qmin; destruct (Qle_bool a a); reflexivity).
    assert (Hmax : Qmax a a = a)
      by (unfold Qmax; destruct (Qle_bool a a); reflexivity).
    rewrite Hmin, Hmax. split; [exact Ha|]. exists 1%Z. ring. }
  unfold _grids_alignable. rewrite (Hsame xgsd Hx), (Hsame ygsd Hy).
  reflexivity.
Qed.

(** Pixel sizes (10, 30) against themselves. *)
Lemma _grids_alignable_same_sizes_witness :
  _grids_alignable 10 30 10 30 = inr true.
Proof.
  apply _grids_alignable_same_sizes; intro H; discriminate H.
Defined.

(** ** The output grid: [_get_out_grid] and the constructor *)

Section Grid.
Context {Arr MapInfo GCP GeoArray : Type}.
Context {C : Collaborators Arr MapInfo GCP GeoArray}.

(** X5: a target grid of two axes is returned as it is, whatever the image,
    the reference and the options [match_gsd] and [align_grids] are,
    provided that [out_gsd], if given too, is a sequence of two numbers. *)
Theorem _get_out_grid_returns_given_grid (im2shift : GeoArray)
    (ref_gt : Geotransform) (ref_grid : Grid) (align_grids : bool)
    (kwargs : Kwargs) (gx gy : Axis) :
  kw_target_xyGrid kwargs = Some [gx; gy] ->
  kw_out_gsd kwargs = None
  \/ (exists a b, kw_out_gsd kwargs = Some (GsdSeq [a; b])) ->
  _get_out_grid im2shift ref_gt ref_grid align_grids kwargs = inr (gx, gy).
Proof.
  intros Hgrid Hgsd. unfold _get_out_grid. rewrite Hgrid.
  destruct Hgsd as [Hgsd|(a & b & Hgsd)]; rewrite Hgsd; reflexivity.
Qed.

(** X6: a target grid that does not have exactly two axes fails the first
    assertion, whatever else is given. *)
Theorem _get_out_grid_rejects_grid_shape (im2shift : GeoArray)
    (ref_gt : Geotransform) (ref_grid : Grid) (align_grids : bool)
    (kwargs : Kwargs) (g : list Axis) :
  kw_target_xyGrid kwargs = Some g ->
  List.length g <> 2%nat ->
  _get_out_grid im2shift ref_gt ref_grid align_grids kwargs
  = inl (AssertionError EmptyString).
Proof.
  intros Hgrid Hlen. unfold _get_out_grid. rewrite Hgrid.
  apply Nat.eqb_neq in Hlen. rewrite Hlen. reflexivity.
Qed.

(** X7: an [out_gsd] that is not a sequence of two numbers never yields a
    grid, also when a well-formed target grid is given: an [int] raises
    [TypeError] from [len], everything else fails the assertion. *)
Theorem _get_out_grid_rejects_out_gsd_shape (im2shift : GeoArray)
    (ref_gt : Geotransform) (ref_grid : Grid) (align_grids : bool)
    (kwargs : Kwargs) (gsd : PyGsd) :
  kw_target_xyGrid kwargs = None
  \/ (exists gx gy, kw_target_xyGrid kwargs = Some [gx; gy]) ->
  kw_out_gsd kwargs = Some gsd ->
  (forall a b, gsd <> GsdSeq [a; b]) ->
  _get_out_grid im2shift ref_gt ref_grid align_grids kwargs
  = inl (match gsd with
         | GsdInt _ => TypeError "object of type 'int' has no len()"
         | _ => AssertionError EmptyString
         end).
Proof.
  intros Hgrid Hgsd Hshape. unfold _get_out_grid. rewrite Hgsd.
  assert (Hfirst : (match kw_target_xyGrid kwargs with
                    | None => ret tt
                    | Some g =>
                        if (List.length g =? 2)%nat then ret tt
                        else raise (AssertionError EmptyString)
                    end) = inr tt)
    by (destruct Hgrid as [->|(gx & gy & ->)]; reflexivity).
  rewrite Hfirst. cbn [bind].
  destruct gsd as [n|x|l]; try reflexivity.
  destruct l as [|a [|b [|c l]]]; try reflexivity.
  exfalso. exact (Hshape a b eq_refl).
Qed.

(** X8: without [align_grids] and without a target grid, the grid is always
    resolved, nothing is raised, and it starts at the origin of the image
    to be shifted ([gt[0]] on x, [gt[3]] on y). *)
Theorem _get_out_grid_unaligned_starts_at_image_origin
    (im2shift : GeoArray) (ref_gt : Geotransform) (ref_grid : Grid)
    (kwargs : Kwargs) :
  kw_target_xyGrid kwargs = None ->
  kw_out_gsd kwargs = None
  \/ (exists a b, kw_out_gsd kwargs = Some (GsdSeq [a; b])) ->
  exists grid,
    _get_out_grid im2shift ref_gt ref_grid false kwargs = inr grid
    /\ fst (fst grid) = gt0 (ga_geotransform im2shift)
    /\ fst (snd grid) = gt3 (ga_geotransform im2shift).
Proof.
  intros Hgrid Hgsd. unfold _get_out_grid. rewrite Hgrid.
  destruct Hgsd as [Hgsd|(a & b & Hgsd)]; rewrite Hgsd; cbn [bind ret].
  - destruct (kwargs_get (kw_match_gsd kwargs) false);
      eexists; repeat split.
  - eexists. repeat split.
Qed.

(** The object that the constructor returns, field by field. *)
Lemma __init___returns (im2shift : GeoArray) (coreg_results : CoregResults)
    (kwargs : Kwargs) (self : DESHIFTER) :
  __init__ im2shift coreg_results kwargs = inr self ->
  exists grid,
    _get_out_grid im2shift (cr_reference_geotransform coreg_results)
      (cr_reference_grid coreg_results)
      (kwargs_get (kw_align_grids kwargs) false) kwargs = inr grid
    /\ str_in (kwargs_get (kw_resamp_alg kwargs) "cubic")
         (dict_keys _dict_rspAlg_rsp_Int) = true
    /\ str_in (kwargs_get (kw_warp_alg kwargs) "GDAL_lib")
         ["GDAL_cmd"; "GDAL_lib"] = true
    /\ self
       = mkDESHIFTER im2shift (ga_projection im2shift)
           (ga_geotransform im2shift) (cr_GCPList coreg_results)
           (match cr_updated_map_info coreg_results with
            | Some m => m
            | None =>
                geotransform2mapinfo (ga_geotransform im2shift)
                  (ga_projection im2shift)
            end)
           (cr_original_map_info coreg_results)
           (match cr_updated_map_info coreg_results with
            | Some m => mapinfo2geotransform m
            | None => ga_geotransform im2shift
            end)
           (cr_reference_geotransform coreg_results)
           (cr_reference_grid coreg_results)
           (cr_reference_projection coreg_results)
           (cr_reference_projection coreg_results)
           (kw_path_out kwargs) (kwargs_get (kw_fmt_out kwargs) "ENVI")
           (kw_band2process kwargs)
           (kwargs_get (kw_nodata kwargs) (ga_nodata im2shift))
           (kwargs_get (kw_align_grids kwargs) false)
           (if negb (kwargs_get (kw_tempAsENVI kwargs) false)
            then "VRT" else "ENVI")
           (kwargs_get (kw_resamp_alg kwargs) "cubic")
           (kwargs_get (kw_warp_alg kwargs) "GDAL_lib")
           (kwargs_get (kw_cliptoextent kwargs) true)
           (kw_clipextent kwargs)
           (kwargs_get (kw_tempDir kwargs) "/dev/shm/") (kw_CPUs kwargs)
           (kwargs_get (kw_v kwargs) false)
           (if negb (kwargs_get (kw_v kwargs) false)
            then kwargs_get (kw_q kwargs) false else false)
           grid
           (Qabs (snd (fst grid) - fst (fst grid)),
            Qabs (snd (snd grid) - fst (snd grid)))
           false false [] None None.
Proof.
  unfold __init__.
  destruct (_get_out_grid _ _ _ _ _) as [exn|grid]; [discriminate|].
  cbn [bind].
  destruct (str_in (kwargs_get (kw_resamp_alg kwargs) "cubic") _);
    [|discriminate].
  destruct (str_in (kwargs_get (kw_warp_alg kwargs) "GDAL_lib") _);
    [|discriminate].
  cbn [negb]. intro H. injection H as <-.
  exists grid. repeat split.
  destruct (cr_updated_map_info coreg_results); reflexivity.
Qed.

(** X9: with [align_grids] and [out_gsd=(a, b)] but no target grid, the
    alignability of the image's pixel sizes with [(a, b)] decides where
    the grid starts: at the origin of the reference when the sizes are
    alignable, at the origin of the image when they are not; an error of
    the check is the error of the method. *)
Theorem _get_out_grid_aligned_out_gsd_origin (im2shift : GeoArray)
    (ref_gt : Geotransform) (ref_grid : Grid) (kwargs : Kwargs) (a b : Q) :
  kw_target_xyGrid kwargs = None ->
  kw_out_gsd kwargs = Some (GsdSeq [a; b]) ->
  match _grids_alignable (ga_xgsd im2shift) (ga_ygsd im2shift) a b with
  | inl e => _get_out_grid im2shift ref_gt ref_grid true kwargs = inl e
  | inr alignable =>
      let gt := if alignable then ref_gt else ga_geotransform im2shift in
      exists grid,
        _get_out_grid im2shift ref_gt ref_grid true kwargs = inr grid
        /\ fst (fst grid) = gt0 gt /\ fst (snd grid) = gt3 gt
  end.
Proof.
  intros Hgrid Hgsd. unfold _get_out_grid. rewrite Hgrid, Hgsd.
  cbn [List.length Nat.eqb bind ret].
  destruct (_grids_alignable _ _ a b) as [e|[|]]; cbn [bind].
  - reflexivity.
  - eexists. split; [reflexivity|]. split; reflexivity.
  - eexists. split; [reflexivity|]. split; reflexivity.
Qed.

(** X10: an object built with [match_gsd=True] and [align_grids=True] and
    neither a target grid nor [out_gsd] has the grid of the reference as
    its own, and the absolute pitches of that grid in [out_gsd]. *)
Theorem __init___aligned_match_gsd_takes_reference_grid
    (im2shift : GeoArray) (coreg_results : CoregResults) (kwargs : Kwargs)
    (self : DESHIFTER) :
  kw_target_xyGrid kwargs = None ->
  kw_out_gsd kwargs = None ->
  kw_match_gsd kwargs = Some true ->
  kw_align_grids kwargs = Some true ->
  __init__ im2shift coreg_results kwargs = inr self ->
  let ref_grid := cr_reference_grid coreg_results in
  out_grid self = ref_grid
  /\ out_gsd self
     = (Qabs (snd (fst ref_grid) - fst (fst ref_grid)),
        Qabs (snd (snd ref_grid) - fst (snd ref_grid))).
Proof.
  intros Hgrid Hgsd Hmatch Halign Hself ref_grid.
  destruct (__init___returns _ _ _ _ Hself) as (grid & Hg & _ & _ & ->).
  cbn [out_grid out_gsd].
  revert Hg. unfold _get_out_grid.
  rewrite Hgrid, Hgsd, Hmatch, Halign. cbn [kwargs_get bind ret].
  intro H. injection H as <-. split; reflexivity.
Qed.

(** X11: with [align_grids] and none of target grid, [out_gsd] and
    [match_gsd], the alignability of the image's pixel sizes with the
    pitches of the reference grid decides where the grid starts: at the
    origin of the reference when the sizes are alignable, at the origin of
    the image when they are not; an error of the check is the error of
    the method. *)
Theorem _get_out_grid_aligned_default_origin (im2shift : GeoArray)
    (ref_gt : Geotransform) (ref_grid : Grid) (kwargs : Kwargs) :
  kw_target_xyGrid kwargs = None ->
  kw_out_gsd kwargs = None ->
  kwargs_get (kw_match_gsd kwargs) false = false ->
  match _grids_alignable (ga_xgsd im2shift) (ga_ygsd im2shift)
          (snd (fst ref_grid) - fst (fst ref_grid))
          (snd (snd ref_grid) - fst (snd ref_grid)) with
  | inl e => _get_out_grid im2shift ref_gt ref_grid true kwargs = inl e
  | inr alignable =>
      let gt := if alignable then ref_gt else ga_geotransform im2shift in
      exists grid,
        _get_out_grid im2shift ref_gt ref_grid true kwargs = inr grid
        /\ fst (fst grid) = gt0 gt /\ fst (snd grid) = gt3 gt
  end.
Proof.
  intros Hgrid Hgsd Hmatch. unfold _get_out_grid.
  rewrite Hgrid, Hgsd, Hmatch. cbn [bind ret].
  destruct (_grids_alignable _ _ _ _) as [e|[|]]; cbn [bind].
  - reflexivity.
  - eexists. split; [reflexivity|]. split; reflexivity.
  - eexists. split; [reflexivity|]. split; reflexivity.
Qed.

End Grid.

(** ** The constructed object in the in-process strategy *)

Section Constructed.
Context {Arr MapInfo GCP GeoArray : Type}.
Context {C : Collaborators Arr MapInfo GCP GeoArray}.

Lemma set_origin_same (gt : Geotransform) :
  set_origin gt (gt0 gt) (gt3 gt) = gt.
Proof.
  destruct gt. reflexivity.
Qed.

(** X12: when the co-registration carries no updated map info, the
    constructor lets [updated_gt] be the geotransform of the image, and
    the in-process strategy hands that geotransform to [warp_ndarray]
    unchanged, with or without GCPs: writing the updated origin into it
    changes nothing. *)
Theorem no_updated_map_info_keeps_geotransform (im2shift : GeoArray)
    (coreg_results : CoregResults) (kwargs : Kwargs)
    (self self' : DESHIFTER) (args : WarpArgs Arr GCP) :
  cr_updated_map_info coreg_results = None ->
  __init__ im2shift coreg_results kwargs = inr self ->
  GDAL_lib_warp_call self = (self', inr args) ->
  updated_gt self = ga_geotransform im2shift
  /\ updated_map_info self
     = geotransform2mapinfo (ga_geotransform im2shift)
         (ga_projection im2shift)
  /\ wa_in_gt args = ga_geotransform im2shift
  /\ shift_gt self' = ga_geotransform im2shift.
Proof.
  intros Hmap Hself.
  destruct (__init___returns _ _ _ _ Hself) as (grid & _ & _ & _ & ->).
  rewrite Hmap. unfold GDAL_lib_warp_call.
  cbn [GCPList shift_gt updated_gt rspAlg updated_map_info].
  rewrite set_origin_same.
  match goal with
  | |- context [if ?b then set_shift_gt ?g ?s else ?s] =>
      replace (if b then set_shift_gt g s else s) with s
        by (destruct b; reflexivity)
  end.
  destruct (dict_get _ _) as [rsp|]; [|discriminate].
  match goal with
  | |- context [_get_out_extent ?s] =>
      destruct (_get_out_extent_assigns s) as [e He];
      destruct (_get_out_extent s) as [s1 ext]
  end.
  cbn [fst] in He. subst s1.
  destruct ext as [exn|bounds]; [discriminate|].
  cbn [bind ret]. intro H. injection H as <- <-.
  repeat split.
Qed.

Lemma dict_get_of_key (name : string) :
  str_in name (dict_keys _dict_rspAlg_rsp_Int) = true ->
  exists code,
    dict_get _dict_rspAlg_rsp_Int name = Some code
    /\ (0 <= code <= 11)%Z.
Proof.
  intro H. apply str_in_In in H. cbn in H.
  repeat (destruct H as [<-|H]; [eexists; split; [reflexivity|lia]|]).
  contradiction.
Qed.

(** Only a grid axis without pitch makes [_get_out_extent] raise. *)
Lemma find_nearest_raises (array : Axis) (value : Q) (alg : RoundAlg)
    (e : PyExn) :
  find_nearest array value alg = inl e -> e = ZeroDivisionError.
Proof.
  unfold find_nearest. destruct (Qeq_bool _ 0).
  - intro H. injection H as <-. reflexivity.
  - destruct alg; discriminate.
Qed.

Lemma _get_out_extent_raises (self : DESHIFTER) (e : PyExn) :
  snd (_get_out_extent self) = inl e -> e = ZeroDivisionError.
Proof.
  unfold _get_out_extent.
  destruct (if cliptoextent self && is_None (clipextent self) then _ else _)
    as [[[x0 y0] x1] y1].
  cbn [snd].
  repeat match goal with
  | |- context [find_nearest ?a ?x ?alg] =>
      destruct (find_nearest a x alg) as [e'|?] eqn:?;
      [intro H; injection H as <-; eapply find_nearest_raises; eassumption|];
      cbn [bind]
  end.
  discriminate.
Qed.

Lemma GDAL_lib_warp_call_code (self : DESHIFTER) (code : Z) :
  dict_get _dict_rspAlg_rsp_Int (rspAlg self) = Some code ->
  (forall self' key, GDAL_lib_warp_call self <> (self', inl (KeyError key)))
  /\ (forall self' args,
        GDAL_lib_warp_call self = (self', inr args) ->
        wa_rspAlg args = code).
Proof.
  intro Hcode. unfold GDAL_lib_warp_call.
  destruct (negb (truthy_list (GCPList self)));
    cbn [rspAlg set_shift_gt]; rewrite Hcode;
    match goal with
    | |- context [_get_out_extent ?s] =>
        destruct (_get_out_extent s) as [s1 [exn|bounds]] eqn:E
    end; cbn [bind ret]; (split; [|try discriminate]);
    try discriminate.
  - intros self' key H. injection H as _ H.
    apply (f_equal snd) in E. cbn [snd] in E.
    apply _get_out_extent_raises in E. congruence.
  - intros self' args H. injection H as _ <-. reflexivity.
  - intros self' key H. injection H as _ H.
    apply (f_equal snd) in E. cbn [snd] in E.
    apply _get_out_extent_raises in E. congruence.
  - intros self' args H. injection H as _ <-. reflexivity.
Qed.

(** X13: for an object that the constructor returned, the look-up of the
    resampling algorithm in the table succeeds: the in-process strategy
    raises no [KeyError], and the code it hands to [warp_ndarray] is the
    table's entry for the name, a number from 0 to 11. *)
Theorem constructed_object_has_resampling_code (im2shift : GeoArray)
    (coreg_results : CoregResults) (kwargs : Kwargs) (self : DESHIFTER) :
  __init__ im2shift coreg_results kwargs = inr self ->
  exists code,
    dict_get _dict_rspAlg_rsp_Int (rspAlg self) = Some code
    /\ (0 <= code <= 11)%Z
    /\ (forall self' key,
          GDAL_lib_warp_call self <> (self', inl (KeyError key)))
    /\ (forall self' args,
          GDAL_lib_warp_call self = (self', inr args) ->
          wa_rspAlg args = code).
Proof.
  intro Hself.
  assert (Hrsp : str_in (rspAlg self) (dict_keys _dict_rspAlg_rsp_Int)
                 = true).
  { destruct (__init___returns _ _ _ _ Hself) as (grid & _ & Hrsp & _ & ->).
    exact Hrsp. }
  destruct (dict_get_of_key _ Hrsp) as (code & Hcode & Hbound).
  exists code. split; [exact Hcode|]. split; [exact Hbound|].
  apply GDAL_lib_warp_call_code. exact Hcode.
Qed.

End Constructed.

(** ** The clip extent over several calls, and the axes of the grid *)

Section Extent_calls.
Context {Arr MapInfo GCP GeoArray : Type}.
Context {C : Collaborators Arr MapInfo GCP GeoArray}.

(** X14: the footprint of the data is used by the first call of
    [_get_out_extent] at most.  The call leaves an extent in
    [self.clipextent], so from the second call on the extent is the box of
    the image, and neither the object nor the returned extent change any
    more. *)
Theorem _get_out_extent_settles_on_box (self : DESHIFTER) :
  let self1 := fst (_get_out_extent self) in
  let self2 := fst (_get_out_extent self1) in
  clipextent self2
  = Some (let '(xmin, xmax, ymin, ymax) := box_boundsMap (im2shift self) in
          (xmin, ymin, xmax, ymax))
  /\ _get_out_extent self2 = (self2, snd (_get_out_extent self1)).
Proof.
  cbv zeta.
  destruct (_get_out_extent_assigns self) as [e He].
  remember (fst (_get_out_extent self)) as self1 eqn:E1. clear E1.
  assert (Hstep : forall s : DESHIFTER,
            clipextent s <> None ->
            _get_out_extent s
            = (set_clipextent
                 (Some (let '(xmin, xmax, ymin, ymax) :=
                          box_boundsMap (im2shift s) in
                        (xmin, ymin, xmax, ymax))) s,
               snd (_get_out_extent s))).
  { intros s Hs. unfold _get_out_extent.
    destruct (clipextent s); [|contradiction].
    rewrite andb_false_r.
    destruct (box_boundsMap (im2shift s)) as [[[xmin xmax] ymin] ymax].
    reflexivity. }
  assert (H1 : clipextent self1 <> None) by (rewrite He; discriminate).
  rewrite (Hstep self1 H1). cbn [fst].
  remember (set_clipextent _ self1) as self2 eqn:H2.
  assert (Him : im2shift self1 = im2shift self) by (rewrite He; reflexivity).
  split; [rewrite H2, Him; reflexivity|].
  assert (H3 : clipextent self2 <> None) by (rewrite H2; discriminate).
  rewrite (Hstep self2 H3). f_equal.
  - rewrite H2. reflexivity.
  - rewrite H2. unfold _get_out_extent.
    cbn [cliptoextent clipextent im2shift out_grid set_clipextent].
    rewrite He. cbn [cliptoextent clipextent im2shift out_grid set_clipextent].
    rewrite !andb_false_r. reflexivity.
Qed.

(** X15: of a returned extent, xmin and xmax lie on lines of the x axis
    of the output grid and ymin on a line of the y axis; ymax lies on a
    line of the x axis. *)
Theorem returned_corners_lie_on_grid_lines (self self' : DESHIFTER)
    (xmin ymin xmax ymax : Q) :
  _get_out_extent self = (self', inr (xmin, ymin, xmax, ymax)) ->
  on_grid_line (fst (out_grid self)) xmin
  /\ on_grid_line (snd (out_grid self)) ymin
  /\ on_grid_line (fst (out_grid self)) xmax
  /\ on_grid_line (fst (out_grid self)) ymax.
Proof.
  intro Hrun.
  destruct (_get_out_extent_returns _ _ _ _ _ _ Hrun)
    as (x0 & y0 & x1 & y1 & _ & _ & Hx0 & Hy0 & Hx1 & Hy1).
  split; [|split; [|split]].
  - exact (find_nearest_on_grid _ _ _ _ Hx0).
  - exact (find_nearest_on_grid _ _ _ _ Hy0).
  - exact (find_nearest_on_grid _ _ _ _ Hx1).
  - exact (find_nearest_on_grid _ _ _ _ Hy1).
Qed.

(** X16: on a grid whose two axes share their lines, that is, the first
    line of the y axis is a line of the x axis and the two pitches agree up
    to the sign, ymax lies on a line of the y axis too, although it was
    looked up on the x axis. *)
Theorem ymax_on_y_axis_when_axes_share_lines (self self' : DESHIFTER)
    (xmin ymin xmax ymax : Q) :
  let xaxis := fst (out_grid self) in
  let yaxis := snd (out_grid self) in
  _get_out_extent self = (self', inr (xmin, ymin, xmax, ymax)) ->
  on_grid_line xaxis (fst yaxis) ->
  snd yaxis - fst yaxis == snd xaxis - fst xaxis
  \/ snd yaxis - fst yaxis == - (snd xaxis - fst xaxis) ->
  on_grid_line yaxis ymax.
Proof.
  intros xaxis yaxis Hrun [m Hm] Hpitch.
  destruct (_get_out_extent_returns _ _ _ _ _ _ Hrun)
    as (x0 & y0 & x1 & y1 & _ & _ & _ & _ & _ & Hy1).
  destruct (find_nearest_on_grid _ _ _ _ Hy1) as [k Hk].
  fold xaxis in Hk. unfold on_grid_line.
  destruct Hpitch as [Hp|Hp].
  - exists (k - m)%Z. unfold Z.sub.
    rewrite inject_Z_plus, inject_Z_opp, Hp, Hk.
    rewrite Hm. ring.
  - exists (m - k)%Z. unfold Z.sub.
    rewrite inject_Z_plus, inject_Z_opp, Hp, Hk.
    rewrite Hm. ring.
Qed.

End Extent_calls.

(** ** What a run of [correct_shifts] changes and what it keeps *)

Section Runs.
Context {Arr MapInfo GCP GeoArray : Type}.
Context {C : Collaborators Arr MapInfo GCP GeoArray}.

(** The attributes that hold the options and the inputs. *)
Local Abbreviation same_options self self' :=
  (im2shift self' = im2shift self
   /\ GCPList self' = GCPList self
   /\ original_map_info self' = original_map_info self
   /\ ref_gt self' = ref_gt self
   /\ ref_grid self' = ref_grid self
   /\ ref_prj self' = ref_prj self
   /\ path_out self' = path_out self
   /\ fmt_out self' = fmt_out self
   /\ band2process self' = band2process self
   /\ nodata self' = nodata self
   /\ align_grids self' = align_grids self
   /\ outFmt self' = outFmt self
   /\ rspAlg self' = rspAlg self
   /\ warpAlg self' = warpAlg self
   /\ cliptoextent self' = cliptoextent self
   /\ tempDir self' = tempDir self
   /\ CPUs self' = CPUs self
   /\ v self' = v self
   /\ q self' = q self
   /\ out_grid self' = out_grid self
   /\ out_gsd self' = out_gsd self).

(** The steps of the three branches, with the object after
    [_get_out_extent] named by its assignment. *)
Ltac enter_no_resampling self :=
  unfold correct_shifts_no_resampling;
  let e := fresh "e" in
  let He := fresh "He" in
  destruct (_get_out_extent_assigns
              (set_is_resampled false (set_is_shifted true self)))
    as [e He];
  destruct (_get_out_extent
              (set_is_resampled false (set_is_shifted true self)))
    as [?s ?ext] eqn:?Hext;
  cbn [fst] in He; subst.

Ltac enter_GDAL_cmd self :=
  unfold correct_shifts_GDAL_cmd;
  destruct (mkstemp "CoReg_Sat" (outFmt self) (tempDir self) _)
    as [?path_tmp ?fs];
  let e := fresh "e" in
  let He := fresh "He" in
  destruct (_get_out_extent_assigns self) as [e He];
  destruct (_get_out_extent self) as [?s ?ext] eqn:?Hext;
  cbn [fst] in He; subst.

Lemma GDAL_lib_warp_call_assigns (self self1 : DESHIFTER)
    (call : Raises (WarpArgs Arr GCP)) :
  GDAL_lib_warp_call self = (self1, call) ->
  exists self0,
    (self0 = self
     \/ self0 = set_shift_gt
                  (set_origin (shift_gt self)
                     (gt0 (updated_gt self)) (gt3 (updated_gt self))) self)
    /\ (self1 = self0 \/ exists e, self1 = set_clipextent (Some e) self0).
Proof.
  unfold GDAL_lib_warp_call.
  match goal with
  | |- context [if ?b then ?s' else self] =>
      assert (H0 : (if b then s' else self) = self
                   \/ (if b then s' else self) = s')
        by (destruct b; auto);
      generalize dependent (if b then s' else self)
  end.
  intros self0 H0.
  destruct (dict_get _ _) as [rsp|].
  - destruct (_get_out_extent_assigns self0) as [e He].
    destruct (_get_out_extent self0) as [s ext]. cbn [fst] in He. subst s.
    intro H. injection H as <- _. exists self0. split; [exact H0|].
    right. exists e. reflexivity.
  - intro H. injection H as <- _. exists self0. auto.
Qed.

Lemma no_resampling_keeps_options (self self' : DESHIFTER) (fs fs' : FS)
    (out : Raises Results) :
  correct_shifts_no_resampling self fs = (self', fs', out) ->
  same_options self self'
  /\ shift_gt self' = shift_gt self /\ shift_prj self' = shift_prj self
  /\ tracked_errors self' = tracked_errors self
  /\ (truthy_str (path_out self) = false -> fs' = fs).
Proof.
  enter_no_resampling self.
  destruct ext as [exn|[[[xmin ymin] xmax] ymax]].
  - intro H. injection H as <- <- _. conjuncts; reflexivity.
  - cbn [cliptoextent path_out set_clipextent set_is_resampled
         set_is_shifted].
    destruct (cliptoextent self) eqn:Hclip.
    + destruct (get_mapPos _ _ _ _) as [[arr gt] prj].
      cbn [path_out set_GeoArray_shifted set_updated_map_info
           set_updated_projection set_updated_gt set_arr_shifted
           set_clipextent set_is_resampled set_is_shifted].
      intro H. injection H as <- <- _.
      conjuncts; try reflexivity; try exact Hclip.
      intros ->. reflexivity.
    + cbn [path_out set_GeoArray_shifted set_arr_shifted
           set_clipextent set_is_resampled set_is_shifted].
      intro H. injection H as <- <- _.
      conjuncts; try reflexivity; try exact Hclip.
      intros ->. reflexivity.
Qed.

Lemma GDAL_cmd_keeps_options (self self' : DESHIFTER) (fs fs' : FS)
    (out : Raises Results) :
  correct_shifts_GDAL_cmd self fs = (self', fs', out) ->
  same_options self self'
  /\ updated_projection self' = updated_projection self
  /\ (tracked_errors self' = tracked_errors self
      \/ (tracked_errors self'
          = (tracked_errors self ++ [RuntimeError "Resampling failed."])%list
          /\ out = inl (RuntimeError "Resampling failed."))).
Proof.
  enter_GDAL_cmd self.
  destruct ext as [exn|t_extent].
  - intro H. injection H as <- _ _. conjuncts; try reflexivity. left.
    reflexivity.
  - destruct (subcall_with_output _ _) as [[[out' exitcode] err] fs2].
    destruct (negb (exitcode =? 1)%Z && path_exists path_tmp fs2).
    + destruct (gdal_open _ _) as [exn|[gt prj]].
      * intro H. injection H as <- _ _. conjuncts; try reflexivity. left.
        reflexivity.
      * cbv zeta.
        destruct (match band2process _ with None => _ | Some _ => _ end)
          as [exn|arr];
          intro H; injection H as <- _ _; conjuncts; try reflexivity; left;
          reflexivity.
    + intro H. injection H as <- _ <-. conjuncts; try reflexivity. right.
      cbn [tracked_errors set_tracked_errors set_clipextent].
      rewrite last_last. split; reflexivity.
Qed.

Lemma GDAL_lib_keeps_options (self self' : DESHIFTER) (fs fs' : FS)
    (out : Raises Results) :
  correct_shifts_GDAL_lib self fs = (self', fs', out) ->
  same_options self self'
  /\ shift_prj self' = shift_prj self
  /\ tracked_errors self' = tracked_errors self
  /\ (truthy_str (path_out self) = false -> fs' = fs).
Proof.
  unfold correct_shifts_GDAL_lib.
  destruct (GDAL_lib_warp_call self) as [self1 call] eqn:Hcall.
  destruct (GDAL_lib_warp_call_assigns _ _ _ Hcall)
    as (self0 & H0 & H1).
  assert (Hsame : same_options self self1
                  /\ shift_prj self1 = shift_prj self
                  /\ tracked_errors self1 = tracked_errors self).
  { destruct H0 as [->| ->]; destruct H1 as [->|[e ->]];
      conjuncts; reflexivity. }
  clear Hcall H0 H1 self0.
  destruct call as [exn|args].
  - intro H. injection H as <- <- _.
    destruct Hsame as (Hsame & Hp & Ht).
    split; [exact Hsame|]. auto.
  - destruct (warp_ndarray args) as [[out_arr out_gt] out_prj].
    cbn [path_out fmt_out set_is_resampled set_is_shifted
         set_GeoArray_shifted set_shift_gt set_updated_map_info
         set_arr_shifted set_updated_projection].
    intro H. injection H as <- <- _.
    cbn [im2shift GCPList original_map_info ref_gt ref_grid ref_prj
         path_out fmt_out band2process nodata align_grids outFmt rspAlg
         warpAlg cliptoextent tempDir CPUs v q out_grid out_gsd shift_prj
         tracked_errors set_is_resampled set_is_shifted
         set_GeoArray_shifted set_shift_gt set_updated_map_info
         set_arr_shifted set_updated_projection].
    destruct Hsame as (Hsame & Hp & Ht).
    split; [exact Hsame|]. split; [exact Hp|]. split; [exact Ht|].
    destruct Hsame as (_ & _ & _ & _ & _ & _ & Hpath & _).
    rewrite Hpath. intros ->. reflexivity.
Qed.

(** X17: a run of [correct_shifts], whether it returns or raises, leaves
    the options and inputs of the object as the constructor set them: the
    image, the GCP list, the reference geometry, the output grid and pixel
    size, the algorithms, the flags and the paths. *)
Theorem correct_shifts_keeps_options (self self' : DESHIFTER)
    (fs fs' : FS) (out : Raises Results) :
  correct_shifts self fs = (self', fs', out) ->
  same_options self self'.
Proof.
  unfold correct_shifts, correct_shifts_resampling.
  destruct (no_resampling_needed self).
  - intro H. apply no_resampling_keeps_options in H. tauto.
  - destruct (String.eqb (warpAlg self) "GDAL_cmd").
    + intro H. apply GDAL_cmd_keeps_options in H. tauto.
    + destruct (String.eqb (warpAlg self) "GDAL_lib").
      * intro H. apply GDAL_lib_keeps_options in H. tauto.
      * intro H. injection H as <- _ _. conjuncts; reflexivity.
Qed.

(** X18: [tracked_errors] only grows, and only by the error that is
    raised: after a run the list is what it was, or it has
    'Resampling failed.' appended and that error is the outcome.  A run
    that returns leaves the list as it was. *)
Theorem correct_shifts_tracks_what_it_raises (self self' : DESHIFTER)
    (fs fs' : FS) (out : Raises Results) :
  correct_shifts self fs = (self', fs', out) ->
  let failed := RuntimeError "Resampling failed." in
  (tracked_errors self' = tracked_errors self
   \/ (tracked_errors self' = (tracked_errors self ++ [failed])%list
       /\ out = inl failed))
  /\ (forall r, out = inr r -> tracked_errors self' = tracked_errors self).
Proof.
  intros Hrun failed.
  assert (H : tracked_errors self' = tracked_errors self
              \/ (tracked_errors self'
                  = (tracked_errors self ++ [failed])%list
                  /\ out = inl failed)).
  { revert Hrun. unfold correct_shifts, correct_shifts_resampling.
    destruct (no_resampling_needed self).
    - intro H. apply no_resampling_keeps_options in H. tauto.
    - destruct (String.eqb (warpAlg self) "GDAL_cmd").
      + intro H. apply GDAL_cmd_keeps_options in H. tauto.
      + destruct (String.eqb (warpAlg self) "GDAL_lib").
        * intro H. apply GDAL_lib_keeps_options in H. tauto.
        * intro H. injection H as <- _ _. left. reflexivity. }
  split; [exact H|].
  intros r ->. destruct H as [H|[_ H]]; [exact H|discriminate].
Qed.

(** X19: outside the external-process strategy a run touches the files
    only to save the result: with no output path (or an empty one) the
    files after the run are the files before it. *)
Theorem correct_shifts_without_path_out_keeps_files (self self' : DESHIFTER)
    (fs fs' : FS) (out : Raises Results) :
  no_resampling_needed self = true \/ warpAlg self <> "GDAL_cmd" ->
  truthy_str (path_out self) = false ->
  correct_shifts self fs = (self', fs', out) ->
  fs' = fs.
Proof.
  intros Hbranch Hpath.
  unfold correct_shifts, correct_shifts_resampling.
  destruct (no_resampling_needed self).
  - intro H. apply no_resampling_keeps_options in H.
    destruct H as (_ & _ & _ & _ & H). exact (H Hpath).
  - destruct Hbranch as [Hb|Hb]; [discriminate|].
    apply String.eqb_neq in Hb. rewrite Hb.
    destruct (String.eqb (warpAlg self) "GDAL_lib").
    + intro H. apply GDAL_lib_keeps_options in H.
      destruct H as (_ & _ & _ & H). exact (H Hpath).
    + intro H. injection H as _ <- _. reflexivity.
Qed.

(** X20: a run through the branch "NO RESAMPLING NEEDED" keeps the
    geotransform and the projection of the image, so the guard of that
    branch holds again afterwards and every further run takes the same
    branch; the record of a returning run reports that kept geotransform
    as 'updated geotransform', clipped or not. *)
Theorem no_resampling_branch_is_stable (self self' : DESHIFTER)
    (fs fs' : FS) (out : Raises Results) :
  no_resampling_needed self = true ->
  correct_shifts self fs = (self', fs', out) ->
  shift_gt self' = shift_gt self
  /\ shift_prj self' = shift_prj self
  /\ no_resampling_needed self' = true
  /\ (forall r, out = inr r -> res_updated_geotransform r = shift_gt self).
Proof.
  intros Hguard. unfold correct_shifts. rewrite Hguard. intro Hrun.
  assert (Hout : forall r, out = inr r -> r = deshift_results self').
  { intros r ->. apply no_resampling_flags in Hrun. tauto. }
  apply no_resampling_keeps_options in Hrun.
  destruct Hrun as (Hsame & Hgt & Hprj & _).
  split; [exact Hgt|]. split; [exact Hprj|]. split.
  - unfold no_resampling_needed in *.
    destruct Hsame
      as (_ & _ & _ & _ & _ & Hrp & _ & _ & _ & _ & Hal & _ & _ & _ & _ &
          _ & _ & _ & _ & Hog & _).
    rewrite Hrp, Hprj, Hgt, Hog, Hal. exact Hguard.
  - intros r Hr. rewrite (Hout r Hr). cbn [deshift_results
      res_updated_geotransform]. exact Hgt.
Qed.

(** The snapped extent does not depend on the flags and the results of a
    run. *)
Lemma _get_out_extent_of_same_inputs (s s' : DESHIFTER) :
  cliptoextent s' = cliptoextent s -> clipextent s' = clipextent s ->
  im2shift s' = im2shift s -> out_grid s' = out_grid s ->
  snd (_get_out_extent s') = snd (_get_out_extent s).
Proof.
  intros H1 H2 H3 H4. unfold _get_out_extent. rewrite H1, H2, H3.
  destruct (if cliptoextent s && is_None (clipextent s) then _ else _)
    as [[[x0 y0] x1] y1].
  cbn [snd out_grid set_clipextent]. rewrite H4. reflexivity.
Qed.

(** X21: without clipping, a returning run through the branch
    "NO RESAMPLING NEEDED" hands back the array of the image as it is,
    with the geotransform of the image, and leaves the updated map info
    and projection as the constructor took them from the co-registration. *)
Theorem no_resampling_without_clipping_returns_image (self self' : DESHIFTER)
    (fs fs' : FS) (r : Results) :
  no_resampling_needed self = true ->
  cliptoextent self = false ->
  correct_shifts self fs = (self', fs', inr r) ->
  res_arr_shifted r = Some (ga_getitem_all (im2shift self))
  /\ res_GeoArray_shifted r
     = Some (GeoArray_new (ga_getitem_all (im2shift self)) (shift_gt self)
               (updated_projection self))
  /\ res_updated_map_info r = updated_map_info self
  /\ res_updated_projection r = updated_projection self
  /\ res_is_resampled r = false
  /\ res_band r = band2process self.
Proof.
  intros Hguard Hclip. unfold correct_shifts. rewrite Hguard.
  enter_no_resampling self.
  destruct ext as [exn|[[[xmin ymin] xmax] ymax]]; [discriminate|].
  cbn [cliptoextent set_clipextent set_is_resampled set_is_shifted].
  rewrite Hclip. intro H. injection H as _ _ <-.
  conjuncts; reflexivity.
Qed.

(** X22: with clipping, a returning run through the branch
    "NO RESAMPLING NEEDED" places the array of the image by [updated_gt],
    takes the window of the snapped extent out of it with the no-data
    value as fill, and reports the array, map info and projection of that
    window; [updated_gt] is replaced by the geotransform of the window. *)
Theorem no_resampling_with_clipping_returns_window (self self' : DESHIFTER)
    (fs fs' : FS) (r : Results) :
  no_resampling_needed self = true ->
  cliptoextent self = true ->
  correct_shifts self fs = (self', fs', inr r) ->
  exists extent,
    snd (_get_out_extent self) = inr extent
    /\ let '(arr, gt, prj) :=
         get_mapPos
           (GeoArray_new (ga_getitem_all (im2shift self)) (updated_gt self)
              (shift_prj self))
           extent (shift_prj self) (nodata self) in
       res_arr_shifted r = Some arr
       /\ res_updated_map_info r = geotransform2mapinfo gt prj
       /\ res_updated_projection r = prj
       /\ res_GeoArray_shifted r
          = Some (GeoArray_new arr (shift_gt self) prj)
       /\ updated_gt self' = gt.
Proof.
  intros Hguard Hclip. unfold correct_shifts. rewrite Hguard.
  assert (Hsnd : snd (_get_out_extent
                        (set_is_resampled false (set_is_shifted true self)))
                 = snd (_get_out_extent self))
    by (apply _get_out_extent_of_same_inputs; reflexivity).
  enter_no_resampling self. cbn [snd] in Hsnd.
  destruct ext as [exn|[[[xmin ymin] xmax] ymax]]; [discriminate|].
  exists (xmin, ymin, xmax, ymax). split; [symmetry; exact Hsnd|].
  revert H.
  cbn [cliptoextent im2shift updated_gt shift_prj nodata
       set_clipextent set_is_resampled set_is_shifted].
  rewrite Hclip.
  destruct (get_mapPos _ _ _ _) as [[arr gt] prj].
  intro H. injection H as <- _ <-.
  conjuncts; reflexivity.
Qed.

(** X23: in the branch "NO RESAMPLING NEEDED" and in the in-process
    strategy, the [GeoArray] of a returned record is built from the
    record's own array, 'updated geotransform' and 'updated projection',
    and the record names the band that was asked for. *)
Theorem returned_GeoArray_matches_record (self self' : DESHIFTER)
    (fs fs' : FS) (r : Results) :
  no_resampling_needed self = true \/ warpAlg self = "GDAL_lib" ->
  correct_shifts self fs = (self', fs', inr r) ->
  res_band r = band2process self
  /\ exists arr,
       res_arr_shifted r = Some arr
       /\ res_GeoArray_shifted r
          = Some (GeoArray_new arr (res_updated_geotransform r)
                    (res_updated_projection r)).
Proof.
  intros Hbranch. unfold correct_shifts, correct_shifts_resampling.
  destruct (no_resampling_needed self).
  - enter_no_resampling self.
    destruct ext as [exn|[[[xmin ymin] xmax] ymax]]; [discriminate|].
    destruct (cliptoextent _).
    + destruct (get_mapPos _ _ _ _) as [[arr gt] prj].
      intro H. injection H as _ _ <-.
      split; [reflexivity|]. eexists. split; reflexivity.
    + intro H. injection H as _ _ <-.
      split; [reflexivity|]. eexists. split; reflexivity.
  - destruct Hbranch as [Hb|Hb]; [discriminate|]. rewrite Hb.
    cbn [String.eqb Ascii.eqb Bool.eqb].
    unfold correct_shifts_GDAL_lib.
    destruct (GDAL_lib_warp_call self) as [self1 call] eqn:Hcall.
    destruct (GDAL_lib_warp_call_assigns _ _ _ Hcall) as (self0 & H0 & H1).
    assert (Hband : band2process self1 = band2process self)
      by (destruct H0 as [->| ->]; destruct H1 as [->|[e ->]]; reflexivity).
    destruct call as [exn|args]; [discriminate|].
    destruct (warp_ndarray args) as [[out_arr out_gt] out_prj].
    intro H. injection H as _ _ <-.
    split; [exact Hband|]. eexists. split; reflexivity.
Qed.

(** X24: the in-process strategy warps the whole array when
    [band2process] is [None] or 0, and the band of that index otherwise;
    it uses the same no-data value for source and destination, and asks
    for the pixel size [out_gsd] within the snapped clip extent. *)
Theorem GDAL_lib_warp_call_arguments (self self' : DESHIFTER)
    (args : WarpArgs Arr GCP) :
  GDAL_lib_warp_call self = (self', inr args) ->
  wa_ndarray args
  = match band2process self with
    | Some band =>
        if (band =? 0)%Z then ga_getitem_all (im2shift self)
        else ga_getitem (im2shift self) band
    | None => ga_getitem_all (im2shift self)
    end
  /\ wa_in_nodata args = nodata self /\ wa_out_nodata args = nodata self
  /\ wa_out_gsd args = out_gsd self
  /\ snd (_get_out_extent self) = inr (wa_out_bounds args)
  /\ wa_in_prj args = shift_prj self /\ wa_out_prj args = ref_prj self
  /\ wa_CPUs args = CPUs self /\ wa_q args = q self.
Proof.
  unfold GDAL_lib_warp_call.
  match goal with
  | |- context [if ?b then ?s' else self] =>
      assert (Hsnd : snd (_get_out_extent (if b then s' else self))
                     = snd (_get_out_extent self))
        by (apply _get_out_extent_of_same_inputs; destruct b; reflexivity);
      assert (Hsame : shift_prj (if b then s' else self) = shift_prj self
                      /\ ref_prj (if b then s' else self) = ref_prj self
                      /\ nodata (if b then s' else self) = nodata self
                      /\ out_gsd (if b then s' else self) = out_gsd self
                      /\ CPUs (if b then s' else self) = CPUs self
                      /\ q (if b then s' else self) = q self
                      /\ rspAlg (if b then s' else self) = rspAlg self)
        by (destruct b; conjuncts; reflexivity);
      generalize dependent (if b then s' else self)
  end.
  intros self0 Hsnd (Hp & Hr & Hn & Hg & Hc & Hq & Ha).
  destruct (dict_get _ _) as [rsp|]; [|discriminate].
  destruct (_get_out_extent_assigns self0) as [e He].
  destruct (_get_out_extent self0) as [s ext]. cbn [fst snd] in He, Hsnd.
  subst s. destruct ext as [exn|bounds]; [discriminate|].
  cbn [bind ret]. intro H. injection H as _ <-.
  cbn [wa_ndarray wa_in_nodata wa_out_nodata wa_out_gsd wa_out_bounds
       wa_in_prj wa_out_prj wa_CPUs wa_q shift_prj ref_prj nodata out_gsd
       CPUs q set_clipextent].
  rewrite Hp, Hr, Hn, Hg, Hc, Hq, <- Hsnd.
  conjuncts; try reflexivity.
  destruct (band2process self) as [band|]; [|reflexivity].
  cbn [truthy_int kwargs_get]. destruct (band =? 0)%Z; reflexivity.
Qed.

(** X25: a returning run of the external-process strategy takes the
    geotransform and the projection of the image from the warped file and
    builds map info and [GeoArray] from them, but it does not assign
    [updated_projection]: the record's 'updated projection' is what it was
    before the run. *)
Theorem GDAL_cmd_keeps_updated_projection (self self' : DESHIFTER)
    (fs fs' : FS) (r : Results) :
  no_resampling_needed self = false ->
  warpAlg self = "GDAL_cmd" ->
  correct_shifts self fs = (self', fs', inr r) ->
  res_updated_projection r = updated_projection self
  /\ res_updated_geotransform r = shift_gt self'
  /\ res_updated_map_info r
     = geotransform2mapinfo (shift_gt self') (shift_prj self')
  /\ exists arr,
       res_arr_shifted r = Some arr
       /\ res_GeoArray_shifted r
          = Some (GeoArray_new arr (shift_gt self') (shift_prj self')).
Proof.
  intros Hguard Hwarp. unfold correct_shifts, correct_shifts_resampling.
  rewrite Hguard, Hwarp. cbn [String.eqb Ascii.eqb Bool.eqb].
  enter_GDAL_cmd self.
  destruct ext as [exn|t_extent]; [discriminate|].
  destruct (subcall_with_output _ _) as [[[out' exitcode] err] fs2].
  destruct (negb (exitcode =? 1)%Z && path_exists path_tmp fs2);
    [|discriminate].
  destruct (gdal_open _ _) as [exn|[gt prj]]; [discriminate|].
  cbv zeta.
  destruct (match band2process _ with None => _ | Some _ => _ end)
    as [exn|arr]; [discriminate|].
  intro H. injection H as <- _ <-.
  conjuncts; try reflexivity. eexists. split; reflexivity.
Qed.

End Runs.

(** ** The further properties on the sample collaborators *)

(** The x sizes 10 and 7 are not alignable, so the zero y size is not
    noticed. *)
Lemma _grids_alignable_raises_iff_witness :
  _grids_alignable 10 10 7 0 = inr false.
Proof.
  exact (proj2 (_grids_alignable_raises_iff 10 10 7 0) eq_refl).
Defined.

(** [target_xyGrid=[[15, 45], [15, 45]]] with [align_grids=True]. *)
Lemma _get_out_grid_returns_given_grid_witness :
  _get_out_grid image (mkGT 0 10 0 100 0 (-10)) ((0, 10), (100, 90)) true
    (kw_clip (0, 0, 100, 100) [(15, 45); (15, 45)])
  = inr ((15, 45), (15, 45)).
Proof.
  exact (_get_out_grid_returns_given_grid (C := ok) image
           (mkGT 0 10 0 100 0 (-10)) ((0, 10), (100, 90)) true
           (kw_clip (0, 0, 100, 100) [(15, 45); (15, 45)])
           (15, 45) (15, 45) eq_refl (or_introl eq_refl)).
Defined.

(** [target_xyGrid=[[15, 45]]], a single axis. *)
Lemma _get_out_grid_rejects_grid_shape_witness :
  _get_out_grid image (mkGT 0 10 0 100 0 (-10)) ((0, 10), (100, 90)) false
    (kw_clip (0, 0, 100, 100) [(15, 45)])
  = inl (AssertionError EmptyString).
Proof.
  apply (_get_out_grid_rejects_grid_shape (C := ok) image
           (mkGT 0 10 0 100 0 (-10)) ((0, 10), (100, 90)) false
           (kw_clip (0, 0, 100, 100) [(15, 45)]) [(15, 45)] eq_refl).
  cbn. lia.
Defined.

(** [out_gsd=20.0], a float. *)
Lemma _get_out_grid_rejects_out_gsd_shape_witness :
  _get_out_grid image (mkGT 0 10 0 100 0 (-10)) ((0, 10), (100, 90)) true
    (kw_out_gsd_aligned (GsdFloat 20))
  = inl (AssertionError EmptyString).
Proof.
  apply (_get_out_grid_rejects_out_gsd_shape (C := ok) image
           (mkGT 0 10 0 100 0 (-10)) ((0, 10), (100, 90)) true
           (kw_out_gsd_aligned (GsdFloat 20)) (GsdFloat 20)
           (or_introl eq_refl) eq_refl).
  intros a b H. discriminate H.
Defined.

(** No option at all on the image whose origin is (5, 95). *)
Lemma _get_out_grid_unaligned_starts_at_image_origin_witness :
  exists grid,
    _get_out_grid image_odd (mkGT 0 10 0 100 0 (-10)) ((0, 10), (100, 90))
      false kw_default = inr grid
    /\ fst (fst grid) = 5 /\ fst (snd grid) = 95.
Proof.
  exact (_get_out_grid_unaligned_starts_at_image_origin (C := ok) image_odd
           (mkGT 0 10 0 100 0 (-10)) ((0, 10), (100, 90)) kw_default
           eq_refl (or_introl eq_refl)).
Defined.

(** [out_gsd=(20, 20)] and [out_gsd=(7, 7)] with [align_grids=True] on
    the image of 10-unit pixels whose origin is (5, 95): the first is
    alignable and starts at the origin (0, 100) of the reference, the
    second is not and starts at the origin of the image. *)
Lemma _get_out_grid_aligned_out_gsd_origin_witness :
  (exists grid,
     _get_out_grid image_odd (mkGT 0 10 0 100 0 (-10)) ((0, 10), (100, 90))
       true (kw_out_gsd_aligned (GsdSeq [20; 20])) = inr grid
     /\ fst (fst grid) = 0 /\ fst (snd grid) = 100)
  /\ (exists grid,
        _get_out_grid image_odd (mkGT 0 10 0 100 0 (-10))
          ((0, 10), (100, 90)) true (kw_out_gsd_aligned (GsdSeq [7; 7]))
        = inr grid
        /\ fst (fst grid) = 5 /\ fst (snd grid) = 95).
Proof.
  split.
  - exact (_get_out_grid_aligned_out_gsd_origin (C := ok) image_odd
             (mkGT 0 10 0 100 0 (-10)) ((0, 10), (100, 90))
             (kw_out_gsd_aligned (GsdSeq [20; 20])) 20 20 eq_refl eq_refl).
  - exact (_get_out_grid_aligned_out_gsd_origin (C := ok) image_odd
             (mkGT 0 10 0 100 0 (-10)) ((0, 10), (100, 90))
             (kw_out_gsd_aligned (GsdSeq [7; 7])) 7 7 eq_refl eq_refl).
Defined.

(** [match_gsd=True, align_grids=True] on an image of 5-unit pixels
    against the reference of 10-unit pixels. *)
Lemma __init___aligned_match_gsd_takes_reference_grid_witness :
  let fine : Raster :=
    mkRaster (0, 0, 100, 100) (mkGT 0 5 0 100 0 (-5)) "EPSG:32633" None
      (25, 25, 75, 75) (0, 100, 0, 100) "/data/fine.bsq" in
  let kwargs :=
    mkKwargs None None None None (Some true) None None None None None None
      None None None None (Some true) None in
  exists self : Engine,
    __init__ fine (coreg None) kwargs = inr self
    /\ out_grid self = ((0, 10), (100, 90))
    /\ out_gsd self = (Qabs (10 - 0), Qabs (90 - 100)).
Proof.
  intros fine kwargs.
  destruct (__init__ (C := ok) fine (coreg None) kwargs)
    as [exn|self] eqn:E.
  - vm_compute in E. discriminate E.
  - exists self. split; [reflexivity|].
    exact (__init___aligned_match_gsd_takes_reference_grid (C := ok) fine
             (coreg None) kwargs self eq_refl eq_refl eq_refl eq_refl E).
Defined.

(** [align_grids=True] alone on the image of 10-unit pixels whose origin
    is (5, 95) against the reference grid [[0, 10], [100, 90]], and
    against a reference grid of 7-unit pitches. *)
Lemma _get_out_grid_aligned_default_origin_witness :
  (exists grid,
     _get_out_grid image_odd (mkGT 0 10 0 100 0 (-10)) ((0, 10), (100, 90))
       true (kw_warp_aligned "GDAL_lib") = inr grid
     /\ fst (fst grid) = 0 /\ fst (snd grid) = 100)
  /\ (exists grid,
        _get_out_grid image_odd (mkGT 0 7 0 100 0 (-7)) ((0, 7), (100, 93))
          true (kw_warp_aligned "GDAL_lib") = inr grid
        /\ fst (fst grid) = 5 /\ fst (snd grid) = 95).
Proof.
  split.
  - exact (_get_out_grid_aligned_default_origin (C := ok) image_odd
             (mkGT 0 10 0 100 0 (-10)) ((0, 10), (100, 90))
             (kw_warp_aligned "GDAL_lib") eq_refl eq_refl eq_refl).
  - exact (_get_out_grid_aligned_default_origin (C := ok) image_odd
             (mkGT 0 7 0 100 0 (-7)) ((0, 7), (100, 93))
             (kw_warp_aligned "GDAL_lib") eq_refl eq_refl eq_refl).
Defined.

(** Results of a co-registration without updated map info, and the
    in-process strategy with [align_grids=True]. *)
Lemma no_updated_map_info_keeps_geotransform_witness :
  let results : CoregResults :=
    mkCoregResults (GCP := Q * Q * Q * Q) None None
      (mkGT 0 10 0 100 0 (-10), "EPSG:32633")
      (mkGT 0 10 0 100 0 (-10)) ((0, 10), (100, 90)) "EPSG:32633" in
  exists (self self' : Engine) args,
    __init__ image_odd results (kw_warp_aligned "GDAL_lib") = inr self
    /\ GDAL_lib_warp_call self = (self', inr args)
    /\ wa_in_gt args = mkGT 5 10 0 95 0 (-10).
Proof.
  intro results.
  destruct (__init__ (C := ok) image_odd results
              (kw_warp_aligned "GDAL_lib")) as [exn|self] eqn:E.
  - vm_compute in E. discriminate E.
  - destruct (GDAL_lib_warp_call (C := ok) self) as [self' [exn|args]] eqn:E'.
    + apply (f_equal snd) in E'.
      vm_compute in E. injection E as <-. vm_compute in E'. discriminate E'.
    + exists self, self', args. split; [reflexivity|].
      split; [exact E'|].
      exact (proj1 (proj2 (proj2
               (no_updated_map_info_keeps_geotransform (C := ok) image_odd
                  results (kw_warp_aligned "GDAL_lib") self self' args
                  eq_refl E E')))).
Defined.

(** The default algorithm, cubic, has the code 2. *)
Lemma constructed_object_has_resampling_code_witness :
  exists (self : Engine) code,
    __init__ image (coreg None) kw_default = inr self
    /\ dict_get _dict_rspAlg_rsp_Int (rspAlg self) = Some code
    /\ (0 <= code <= 11)%Z.
Proof.
  destruct (__init__ (C := ok) image (coreg None) kw_default)
    as [exn|self] eqn:E.
  - vm_compute in E. discriminate E.
  - destruct (constructed_object_has_resampling_code (C := ok) image
                (coreg None) kw_default self E) as (code & H1 & H2 & _).
    exists self, code. split; [reflexivity|]. split; assumption.
Defined.

(** The default options on the image with footprint (25, 25, 75, 75). *)
Lemma returned_corners_lie_on_grid_lines_witness :
  let self : Engine :=
    engine image None "GDAL_lib" false true None ((0, 10), (100, 90)) in
  on_grid_line (0, 10) 30 /\ on_grid_line (100, 90) 30
  /\ on_grid_line (0, 10) 70 /\ on_grid_line (0, 10) 70.
Proof.
  intro self.
  assert (H : _get_out_extent (C := ok) self
              = (set_clipextent (Some (25, 25, 75, 75)) self,
                 inr (30, 30, 70, 70)))
    by (vm_compute; reflexivity).
  exact (returned_corners_lie_on_grid_lines (C := ok) self _ 30 30 70 70 H).
Defined.

(** The axes [[0, 10]] and [[100, 90]] share their lines. *)
Lemma ymax_on_y_axis_when_axes_share_lines_witness :
  let self : Engine :=
    engine image None "GDAL_lib" false true None ((0, 10), (100, 90)) in
  on_grid_line (100, 90) 70.
Proof.
  intro self.
  assert (H : _get_out_extent (C := ok) self
              = (set_clipextent (Some (25, 25, 75, 75)) self,
                 inr (30, 30, 70, 70)))
    by (vm_compute; reflexivity).
  apply (ymax_on_y_axis_when_axes_share_lines (C := ok) self _ 30 30 70 70 H).
  - exists 10%Z. vm_compute. reflexivity.
  - right. vm_compute. reflexivity.
Defined.

(** A failing warp command: the options stay, the error is tracked. *)
Lemma correct_shifts_keeps_options_witness :
  let self : Engine :=
    engine image None "GDAL_cmd" true true None ((0, 10), (100, 90)) in
  exists self' fs' out,
    correct_shifts (C := collaborators 1 true) self [] = (self', fs', out)
    /\ warpAlg self' = "GDAL_cmd" /\ out_grid self' = ((0, 10), (100, 90)).
Proof.
  intro self.
  destruct (correct_shifts (C := collaborators 1 true) self [])
    as [[self' fs'] out] eqn:E.
  exists self', fs', out. split; [reflexivity|].
  destruct (correct_shifts_keeps_options (C := collaborators 1 true)
              self self' [] fs' out E)
    as (_ & _ & _ & _ & _ & _ & _ & _ & _ & _ & _ & _ & _ & Hw & _ & _ & _ &
        _ & _ & Hg & _).
  split; [exact Hw|exact Hg].
Defined.

(** The same failing warp command. *)
Lemma correct_shifts_tracks_what_it_raises_witness :
  let self : Engine :=
    engine image None "GDAL_cmd" true true None ((0, 10), (100, 90)) in
  exists self' fs' out,
    correct_shifts (C := collaborators 1 true) self [] = (self', fs', out)
    /\ (tracked_errors self' = []
        \/ (tracked_errors self' = [RuntimeError "Resampling failed."]
            /\ out = inl (RuntimeError "Resampling failed."))).
Proof.
  intro self.
  destruct (correct_shifts (C := collaborators 1 true) self [])
    as [[self' fs'] out] eqn:E.
  exists self', fs', out. split; [reflexivity|].
  exact (proj1 (correct_shifts_tracks_what_it_raises
                  (C := collaborators 1 true) self self' [] fs' out E)).
Defined.

(** The in-process strategy without output path. *)
Lemma correct_shifts_without_path_out_keeps_files_witness :
  let self : Engine :=
    engine image None "GDAL_lib" true true None ((0, 10), (100, 90)) in
  exists self' out,
    correct_shifts self ["/data/image.bsq"]
    = (self', ["/data/image.bsq"], out).
Proof.
  intro self.
  destruct (correct_shifts (C := ok) self ["/data/image.bsq"])
    as [[self' fs'] out] eqn:E.
  exists self', out.
  rewrite (correct_shifts_without_path_out_keeps_files (C := ok)
             self self' ["/data/image.bsq"] fs' out).
  - reflexivity.
  - right. discriminate.
  - reflexivity.
  - exact E.
Defined.

(** The default options: the run goes through the first branch, and so
    does the next one. *)
Lemma no_resampling_branch_is_stable_witness :
  let self : Engine :=
    engine image None "GDAL_lib" false true None ((0, 10), (100, 90)) in
  exists self' fs' out,
    correct_shifts self [] = (self', fs', out)
    /\ shift_gt self' = mkGT 0 10 0 100 0 (-10)
    /\ no_resampling_needed self' = true.
Proof.
  intro self.
  destruct (correct_shifts (C := ok) self []) as [[self' fs'] out] eqn:E.
  exists self', fs', out. split; [reflexivity|].
  destruct (no_resampling_branch_is_stable (C := ok) self self' [] fs' out
              eq_refl E) as (Hgt & _ & Hguard & _).
  split; [exact Hgt|exact Hguard].
Defined.

(** [cliptoextent=False]: the array (0, 0, 100, 100) of the image comes
    back. *)
Lemma no_resampling_without_clipping_returns_image_witness :
  let self : Engine :=
    engine image None "GDAL_lib" false false None ((0, 10), (100, 90)) in
  exists self' fs' r,
    correct_shifts self [] = (self', fs', inr r)
    /\ res_arr_shifted r = Some (0, 0, 100, 100).
Proof.
  intro self.
  destruct (correct_shifts (C := ok) self []) as [[self' fs'] [exn|r]] eqn:E.
  - apply (f_equal snd) in E. vm_compute in E. discriminate E.
  - exists self', fs', r. split; [reflexivity|].
    exact (proj1 (no_resampling_without_clipping_returns_image (C := ok)
                    self self' [] fs' r eq_refl eq_refl E)).
Defined.

(** The default options: the window of the snapped footprint. *)
Lemma no_resampling_with_clipping_returns_window_witness :
  let self : Engine :=
    engine image None "GDAL_lib" false true None ((0, 10), (100, 90)) in
  exists self' fs' r extent,
    correct_shifts self [] = (self', fs', inr r)
    /\ snd (_get_out_extent self) = inr extent.
Proof.
  intro self.
  destruct (correct_shifts (C := ok) self []) as [[self' fs'] [exn|r]] eqn:E.
  - apply (f_equal snd) in E. vm_compute in E. discriminate E.
  - destruct (no_resampling_with_clipping_returns_window (C := ok)
                self self' [] fs' r eq_refl eq_refl E) as (extent & H & _).
    exists self', fs', r, extent. split; [reflexivity|exact H].
Defined.

(** The in-process strategy. *)
Lemma returned_GeoArray_matches_record_witness :
  let self : Engine :=
    engine image None "GDAL_lib" true true None ((0, 10), (100, 90)) in
  exists self' fs' r,
    correct_shifts self [] = (self', fs', inr r)
    /\ res_band r = None.
Proof.
  intro self.
  destruct (correct_shifts (C := ok) self []) as [[self' fs'] [exn|r]] eqn:E.
  - apply (f_equal snd) in E. vm_compute in E. discriminate E.
  - exists self', fs', r. split; [reflexivity|].
    exact (proj1 (returned_GeoArray_matches_record (C := ok)
                    self self' [] fs' r (or_intror eq_refl) E)).
Defined.

(** No band is selected: the whole array is warped. *)
Lemma GDAL_lib_warp_call_arguments_witness :
  let self : Engine :=
    engine image None "GDAL_lib" true true None ((0, 10), (100, 90)) in
  exists self' args,
    GDAL_lib_warp_call self = (self', inr args)
    /\ wa_ndarray args = (0, 0, 100, 100).
Proof.
  intro self.
  destruct (GDAL_lib_warp_call (C := ok) self) as [self' [exn|args]] eqn:E.
  - apply (f_equal snd) in E. vm_compute in E. discriminate E.
  - exists self', args. split; [reflexivity|].
    exact (proj1 (GDAL_lib_warp_call_arguments (C := ok) self self' args E)).
Defined.

(** A warp command that exits with 0 and leaves its output. *)
Lemma GDAL_cmd_keeps_updated_projection_witness :
  let self : Engine :=
    engine image None "GDAL_cmd" true true None ((0, 10), (100, 90)) in
  exists self' fs' r,
    correct_shifts self [] = (self', fs', inr r)
    /\ res_updated_projection r = "EPSG:32633".
Proof.
  intro self.
  destruct (correct_shifts (C := ok) self []) as [[self' fs'] [exn|r]] eqn:E.
  - apply (f_equal snd) in E. vm_compute in E. discriminate E.
  - exists self', fs', r. split; [reflexivity|].
    exact (proj1 (GDAL_cmd_keeps_updated_projection (C := ok)
                    self self' [] fs' r eq_refl eq_refl E)).
Defined.
